(** * Image review panel: the tabular core of [main.py]

    A shallow embedding of the four helpers of [main.py] that carry the
    logic of the service:

    - [parse_file]: choice of the pandas reader from the file name, and
      trimming of the column labels;
    - [clean_data]: case-insensitive reconciliation of the four expected
      labels, and the blanket fill of missing cells;
    - [transform_to_hierarchy]: the nested dictionary
      user -> prompts -> images built from two nested [groupby] calls;
    - the flattening loop of [export_file], with its reviewed-only filter.

    Python objects are modelled as they are at run time: a DataFrame is a
    list of labels and a list of indexed rows, a dictionary is an
    association list in insertion order, and the nested dictionaries
    carry their field names as string keys.  Exceptions are values of
    [exn], threaded through a small error monad.

    Strings are sequences of code points below 256 (one [ascii] per code
    point); [isspace] and [lower] are Python's on that range. *)

From Stdlib Require Import List String Ascii ZArith Bool Arith Lia.
From Stdlib Require Import Permutation Sorted DecimalString FinFun.
Import ListNotations.

Local Open Scope string_scope.
Local Open Scope list_scope.

(* ================================================================= *)
(** ** Exceptions and the error monad *)

Inductive exn : Type :=
| UnsupportedFormat                  (* ValueError("Unsupported file format"), main.py line 16 *)
| ReaderError (msg : string)         (* whatever pd.read_csv / pd.read_excel raises *)
| KeyError (key : string)            (* label or dictionary key not found *)
| NotOneDimensional (label : string) (* a label that names several columns *)
| IndexError                         (* .iloc[0] on an empty column *)
| AttributeError (msg : string)      (* a method the object does not have *)
| TypeError (msg : string).          (* subscript or iteration the object does not support *)

Inductive result (A : Type) : Type :=
| Ok (a : A)
| Raise (e : exn).

Arguments Ok {A} a.
Arguments Raise {A} e.

Definition bind {A B : Type} (m : result A) (k : A -> result B) : result B :=
  match m with
  | Ok a => k a
  | Raise e => Raise e
  end.

Notation "x <- m ;; k" := (bind m (fun x => k))
  (at level 61, m at next level, right associativity).
Notation "' pat <- m ;; k" := (bind m (fun x => match x with pat => k end))
  (at level 61, pat pattern, m at next level, right associativity).

(** A [for] loop whose body may raise: the state is threaded from left
    to right and the first exception ends the loop. *)
Fixpoint for_each {S X : Type} (body : S -> X -> result S) (xs : list X) (s : S)
  : result S :=
  match xs with
  | [] => Ok s
  | x :: xs' => s' <- body s x ;; for_each body xs' s'
  end.

(* ================================================================= *)
(** ** Python strings *)

Module PyStr.

(** [str.isspace] on code points below 256: TAB..CR, FS..US, SPACE,
    NEL and NBSP. *)
Definition isspace (c : ascii) : bool :=
  let n := nat_of_ascii c in
  (((9 <=? n) && (n <=? 13)) || ((28 <=? n) && (n <=? 32))
   || (n =? 133) || (n =? 160))%nat.

Fixpoint lstrip (s : string) : string :=
  match s with
  | EmptyString => EmptyString
  | String c s' => if isspace c then lstrip s' else s
  end.

Fixpoint rstrip (s : string) : string :=
  match s with
  | EmptyString => EmptyString
  | String c s' =>
      match rstrip s' with
      | EmptyString => if isspace c then EmptyString else String c EmptyString
      | r => String c r
      end
  end.

(** [s.strip()] *)
Definition strip (s : string) : string := rstrip (lstrip s).

(** [str.lower] on one code point below 256: A..Z and the accented
    capitals U+00C0..U+00DE (the multiplication sign U+00D7 apart). *)
Definition lower_char (c : ascii) : ascii :=
  let n := nat_of_ascii c in
  if (((65 <=? n) && (n <=? 90))
      || ((192 <=? n) && (n <=? 222) && negb (n =? 215)))%nat
  then ascii_of_nat (n + 32) else c.

Fixpoint lower (s : string) : string :=
  match s with
  | EmptyString => EmptyString
  | String c s' => String (lower_char c) (lower s')
  end.

(** [s.endswith(suffix)] *)
Definition endswith (s suffix : string) : bool :=
  let n := String.length s in
  let m := String.length suffix in
  (m <=? n)%nat && (substring (n - m) m s =? suffix).

(** [str(z)] for an integer. *)
Definition of_Z (z : Z) : string := NilZero.string_of_int (Z.to_int z).

End PyStr.

(* ================================================================= *)
(** ** DataFrames *)

(** A cell of a DataFrame: a missing value, an integer or a string.
    (Floats, booleans and dates are outside the model.) *)
Inductive cell : Type :=
| NaN
| CInt (z : Z)
| CStr (s : string).

(** One row: its index label and its cells, in column order.  A row
    shorter than the header reads as missing on the right, as pandas
    pads it. *)
Definition row : Type := (Z * list cell)%type.

Record DataFrame : Type := mkDataFrame {
  columns : list string;
  rows : list row
}.

Definition cell_eqb (a b : cell) : bool :=
  match a, b with
  | NaN, NaN => true
  | CInt x, CInt y => Z.eqb x y
  | CStr x, CStr y => String.eqb x y
  | _, _ => false
  end.

Definition notna (c : cell) : bool :=
  match c with NaN => false | _ => true end.

(** [str(c)] for the scalar held in a cell. *)
Definition str (c : cell) : string :=
  match c with
  | NaN => "nan"
  | CInt z => PyStr.of_Z z
  | CStr s => s
  end.

(** [label in df.columns] *)
Definition has_column (label : string) (cols : list string) : bool :=
  existsb (String.eqb label) cols.

(** Number of columns carrying [label], and the position of the first. *)
Definition count_label (label : string) (cols : list string) : nat :=
  List.length (filter (String.eqb label) cols).

Fixpoint first_pos (label : string) (cols : list string) : nat :=
  match cols with
  | [] => 0
  | c :: cols' => if String.eqb label c then 0 else S (first_pos label cols')
  end.

(** Position of the one column called [label].  No such column is a
    [KeyError].  Where several columns share the label pandas hands
    back a sub-frame instead of a column: [groupby] refuses it ("Grouper
    for ... not 1-dimensional") and no cell can be read from it, which
    the model reports at the lookup. *)
Definition get_loc (label : string) (cols : list string) : result nat :=
  match count_label label cols with
  | 0 => Raise (KeyError label)
  | 1 => Ok (first_pos label cols)
  | _ => Raise (NotOneDimensional label)
  end.

Definition cell_at (p : nat) (r : row) : cell := nth p (snd r) NaN.

(* ----------------------------------------------------------------- *)
(** *** [parse_file] *)

Record FileStorage : Type := mkFile {
  filename : string;
  stream : list Byte.byte
}.

Definition strip_columns (df : DataFrame) : DataFrame :=
  mkDataFrame (map PyStr.strip (columns df)) (rows df).

Section Parse.

(** The two pandas readers: a table, or the message of the exception
    they raise. *)
Variable read_csv : list Byte.byte -> DataFrame + string.
Variable read_excel : list Byte.byte -> DataFrame + string.

Definition run_reader (reader : list Byte.byte -> DataFrame + string)
           (file : FileStorage) : result DataFrame :=
  match reader (stream file) with
  | inl df => Ok df
  | inr msg => Raise (ReaderError msg)
  end.

Definition parse_file (file : FileStorage) : result DataFrame :=
  let filename := filename file in
  df <- (if PyStr.endswith filename ".csv" then run_reader read_csv file
         else if PyStr.endswith filename ".xls" || PyStr.endswith filename ".xlsx"
              then run_reader read_excel file
              else Raise UnsupportedFormat) ;;
  Ok (strip_columns df).

End Parse.

(* ----------------------------------------------------------------- *)
(** *** [clean_data] *)

Definition required : list string := ["userId"; "url"; "title"; "content"].

(** [df.rename(columns={c: m})]: every column labelled [c] becomes [m]. *)
Definition rename (c m : string) (cols : list string) : list string :=
  map (fun x => if String.eqb x c then m else x) cols.

(** The inner [for c in df.columns] loop with its [break]: the first
    column equal to [m] up to case is renamed; with none the frame is
    left as it is. *)
Definition guess_column (cols : list string) (m : string) : list string :=
  match find (fun c => String.eqb (PyStr.lower c) (PyStr.lower m)) cols with
  | Some c => rename c m cols
  | None => cols
  end.

Definition reconcile_columns (cols : list string) : list string :=
  let missing := filter (fun c => negb (has_column c cols)) required in
  fold_left guess_column missing cols.

(** [df.fillna('')] *)
Definition fill_cell (c : cell) : cell :=
  match c with NaN => CStr "" | _ => c end.

(** Cells of a row under a header of [n] labels, missing ones included. *)
Fixpoint pad (n : nat) (cs : list cell) : list cell :=
  match n with
  | 0 => []
  | S n' => match cs with
            | [] => NaN :: pad n' []
            | c :: cs' => c :: pad n' cs'
            end
  end.

Definition fill_row (n : nat) (r : row) : row :=
  (fst r, map fill_cell (pad n (snd r))).

Definition fillna (df : DataFrame) : DataFrame :=
  mkDataFrame (columns df) (map (fill_row (List.length (columns df))) (rows df)).

Definition clean_data (df : DataFrame) : DataFrame :=
  fillna (mkDataFrame (reconcile_columns (columns df)) (rows df)).

(* ----------------------------------------------------------------- *)
(** *** [groupby] *)

(** Order of the group keys under [groupby]'s default [sort=True]:
    integers by value, then strings by code point, then nulls. *)
Definition cell_leb (a b : cell) : bool :=
  match a, b with
  | CInt x, CInt y => Z.leb x y
  | CInt _, _ => true
  | CStr _, CInt _ => false
  | CStr x, CStr y => String.leb x y
  | CStr _, NaN => true
  | NaN, NaN => true
  | NaN, _ => false
  end.

Fixpoint insert_key (k : cell) (l : list cell) : list cell :=
  match l with
  | [] => [k]
  | x :: l' => if cell_leb k x then k :: l else x :: insert_key k l'
  end.

Fixpoint sort_keys (l : list cell) : list cell :=
  match l with
  | [] => []
  | x :: l' => insert_key x (sort_keys l')
  end.

(** Distinct values, in order of first appearance. *)
Fixpoint unique (l : list cell) : list cell :=
  match l with
  | [] => []
  | x :: l' => x :: filter (fun y => negb (cell_eqb x y)) (unique l')
  end.

Definition group_keys (p : nat) (rs : list row) : list cell :=
  sort_keys (unique (filter notna (map (cell_at p) rs))).

Definition group_rows (p : nat) (k : cell) (rs : list row) : list row :=
  filter (fun r => cell_eqb (cell_at p r) k) rs.

(** [df.groupby(label)], as the sequence of [(key, sub-frame)] pairs that
    iterating over it yields: keys in sorted order, rows with a missing
    key left out ([dropna=True]), rows of a group in frame order. *)
Definition groupby (label : string) (df : DataFrame) : result (list (cell * DataFrame)) :=
  p <- get_loc label (columns df) ;;
  Ok (map (fun k => (k, mkDataFrame (columns df) (group_rows p k (rows df))))
          (group_keys p (rows df))).

(* ================================================================= *)
(** ** Python values *)

#[warnings="-register-all"]
Inductive pyval : Type :=
| PNone
| PBool (b : bool)
| PInt (z : Z)
| PNan
| PStr (s : string)
| PList (l : list pyval)
| PDict (d : list (pyval * pyval)).

Definition dict : Type := list (pyval * pyval).

Definition py (c : cell) : pyval :=
  match c with
  | NaN => PNan
  | CInt z => PInt z
  | CStr s => PStr s
  end.

(** Equality of dictionary keys ([True == 1] included). *)
Definition key_eqb (a b : pyval) : bool :=
  match a, b with
  | PNone, PNone => true
  | PBool x, PBool y => Bool.eqb x y
  | PBool x, PInt y => Z.eqb (if x then 1 else 0) y
  | PInt x, PBool y => Z.eqb x (if y then 1 else 0)
  | PInt x, PInt y => Z.eqb x y
  | PStr x, PStr y => String.eqb x y
  | _, _ => false
  end.

Definition key_repr (k : pyval) : string :=
  match k with
  | PStr s => s
  | PInt z => PyStr.of_Z z
  | _ => ""
  end.

(** [bool(v)] *)
Definition truthy (v : pyval) : bool :=
  match v with
  | PNone => false
  | PBool b => b
  | PInt z => negb (Z.eqb z 0)
  | PNan => true
  | PStr s => negb (String.eqb s "")
  | PList l => match l with [] => false | _ => true end
  | PDict d => match d with [] => false | _ => true end
  end.

Fixpoint dict_get (k : pyval) (d : dict) : option pyval :=
  match d with
  | [] => None
  | (k', v) :: d' => if key_eqb k k' then Some v else dict_get k d'
  end.

(** [d[k] = v]: an existing key keeps its place, a new one goes last. *)
Fixpoint dict_set (k v : pyval) (d : dict) : dict :=
  match d with
  | [] => [(k, v)]
  | (k', v') :: d' => if key_eqb k k' then (k', v) :: d'
                      else (k', v') :: dict_set k v d'
  end.

(** Mutation, by [f], of the object stored under [k]. *)
Fixpoint dict_update (k : pyval) (f : pyval -> result pyval) (d : dict) : result dict :=
  match d with
  | [] => Raise (KeyError (key_repr k))
  | (k', v) :: d' =>
      if key_eqb k k' then v' <- f v ;; Ok ((k', v') :: d')
      else d'' <- dict_update k f d' ;; Ok ((k', v) :: d'')
  end.

(** [o[k] = v] *)
Definition setitem (k v : pyval) (o : pyval) : result pyval :=
  match o with
  | PDict d => Ok (PDict (dict_set k v d))
  | _ => Raise (TypeError "object does not support item assignment")
  end.

(** [o[k]], then [f] on the object found there; dictionaries are
    shared by reference, so the change shows in [o]. *)
Definition at_key (k : pyval) (f : pyval -> result pyval) (o : pyval) : result pyval :=
  match o with
  | PDict d => d' <- dict_update k f d ;; Ok (PDict d')
  | _ => Raise (TypeError "object is not subscriptable")
  end.

(** [o.append(x)] *)
Definition append (x : pyval) (o : pyval) : result pyval :=
  match o with
  | PList l => Ok (PList (l ++ [x]))
  | _ => Raise (AttributeError "append")
  end.

(* ================================================================= *)
(** ** [transform_to_hierarchy] *)

(** [row[label]], for a label that names one column.  Where the label
    names several, pandas returns a Series and raises nothing; no such
    value is in [pyval], and the model stops with the exception of
    [get_loc].  What is proved of the builder on frames with rows
    assumes that [url] and [content] each name at most one column. *)
Definition row_get (label : string) (cols : list string) (r : row) : result pyval :=
  p <- get_loc label cols ;; Ok (py (cell_at p r)).

(** [df[label].iloc[0]], for a label that names one column (with
    several, pandas takes the first row of the sub-frame: see
    [row_get]). *)
Definition first_of (label : string) (df : DataFrame) : result pyval :=
  p <- get_loc label (columns df) ;;
  match rows df with
  | [] => Raise IndexError
  | r :: _ => Ok (py (cell_at p r))
  end.

Definition image_loop (user_id_str title prompt_content : pyval) (prompt_group : DataFrame)
  : pyval -> result pyval :=
  for_each (fun users_data (r : row) =>
      let cols := columns prompt_group in
      url <- row_get "url" cols r ;;
      content <- (if has_column "content" cols then row_get "content" cols r
                  else Ok prompt_content) ;;
      at_key user_id_str
        (at_key (PStr "prompts")
           (at_key title
              (at_key (PStr "images")
                 (append (PDict [(PStr "url", url);
                                 (PStr "content", content);
                                 (PStr "original_row_index", PInt (fst r))])))))
        users_data)
    (rows prompt_group).

Definition prompt_loop (user_id_str : pyval) (grouped_prompts : list (cell * DataFrame))
  : pyval -> result pyval :=
  for_each (fun users_data '(title, prompt_group) =>
      prompt_content <- (if has_column "content" (columns prompt_group)
                         then first_of "content" prompt_group
                         else Ok (PStr "")) ;;
      users_data <- at_key user_id_str
                      (at_key (PStr "prompts")
                         (setitem (py title)
                            (PDict [(PStr "title", py title);
                                    (PStr "content", prompt_content);
                                    (PStr "images", PList [])])))
                      users_data ;;
      image_loop user_id_str (py title) prompt_content prompt_group users_data)
    grouped_prompts.

Definition user_loop (grouped_users : list (cell * DataFrame))
  : pyval -> result pyval :=
  for_each (fun users_data '(user_id, user_group) =>
      let user_id_str := PStr (str user_id) in
      users_data <- setitem user_id_str
                      (PDict [(PStr "userId", user_id_str);
                              (PStr "prompts", PDict [])])
                      users_data ;;
      grouped_prompts <- groupby "title" user_group ;;
      prompt_loop user_id_str grouped_prompts users_data)
    grouped_users.

Definition transform_to_hierarchy (df : DataFrame) : result pyval :=
  grouped_users <- groupby "userId" df ;;
  user_loop grouped_users (PDict []).

(* ================================================================= *)
(** ** The flattening loop of [export_file] *)

(** [o.items()] *)
Definition py_items (o : pyval) : result dict :=
  match o with
  | PDict d => Ok d
  | _ => Raise (AttributeError "items")
  end.

(** [o.get(k, default)] *)
Definition py_get (o : pyval) (k : string) (default : pyval) : result pyval :=
  match o with
  | PDict d => Ok (match dict_get (PStr k) d with Some v => v | None => default end)
  | _ => Raise (AttributeError "get")
  end.

(** The elements that [for x in o] visits. *)
Definition py_iter (o : pyval) : result (list pyval) :=
  match o with
  | PList l => Ok l
  | PDict d => Ok (map fst d)
  | PStr s => Ok (map (fun c => PStr (String c EmptyString)) (list_ascii_of_string s))
  | _ => Raise (TypeError "object is not iterable")
  end.

Definition flat_row (user_id title content url is_defective review_comment : pyval) : pyval :=
  PDict [(PStr "userId", user_id);
         (PStr "title", title);
         (PStr "content", content);
         (PStr "url", url);
         (PStr "is_defective", is_defective);
         (PStr "review_comment", review_comment)].

Definition flatten_images (reviewed_only user_id title content : pyval) (images : list pyval)
  : list pyval -> result (list pyval) :=
  for_each (fun flat_data img =>
      is_defective <- py_get img "is_defective" (PBool false) ;;
      review_comment <- py_get img "review_comment" (PStr "") ;;
      if truthy reviewed_only
         && (negb (truthy is_defective) && negb (truthy review_comment))
      then Ok flat_data
      else url <- py_get img "url" (PStr "") ;;
           Ok (flat_data ++ [flat_row user_id title content url is_defective review_comment]))
    images.

Definition flatten_prompts (reviewed_only user_id : pyval) (prompts : dict)
  : list pyval -> result (list pyval) :=
  for_each (fun flat_data '(title, prompt_info) =>
      content <- py_get prompt_info "content" (PStr "") ;;
      images <- py_get prompt_info "images" (PList []) ;;
      imgs <- py_iter images ;;
      flatten_images reviewed_only user_id title content imgs flat_data)
    prompts.

Definition flatten_users (reviewed_only : pyval) (users : dict)
  : list pyval -> result (list pyval) :=
  for_each (fun flat_data '(user_id, user_info) =>
      prompts <- py_get user_info "prompts" (PDict []) ;;
      groups <- py_items prompts ;;
      flatten_prompts reviewed_only user_id groups flat_data)
    users.

(** Lines 126-151 of [export_file]: [flat_data] for the hierarchy
    [users_data]. *)
Definition flatten (users_data reviewed_only : pyval) : result (list pyval) :=
  users <- py_items users_data ;;
  flatten_users reviewed_only users [].

(** Lines 120-151: the request body is read with its defaults. *)
Definition export_flat_data (req_data : pyval) : result (list pyval) :=
  users_data <- py_get req_data "data" (PDict []) ;;
  reviewed_only <- py_get req_data "reviewed_only" (PBool false) ;;
  flatten users_data reviewed_only.

(** [upload_file], lines 109-111, on the frame that the reader returned:
    the normalized frame, and the hierarchy built from it. *)
Definition normalized (df : DataFrame) : DataFrame :=
  clean_data (strip_columns df).

Definition ingest_build (df : DataFrame) : result pyval :=
  transform_to_hierarchy (normalized df).

(** Upload, then export of the untouched hierarchy. *)
Definition round_trip (df : DataFrame) : result (list pyval) :=
  h <- ingest_build df ;; flatten h (PBool false).


(* ================================================================= *)
(** ** The hierarchy as a value

    What the loops of [transform_to_hierarchy] leave in [users_data],
    written without loops: it is proved equal to the result of the
    function in [transform_to_hierarchy_value]. *)

(** The frame can be grouped and read: [userId], [title] and [url] each
    name one column, [content] at most one. *)
Definition well_labelled (cols : list string) : bool :=
  (count_label "userId" cols =? 1)%nat
  && (count_label "title" cols =? 1)%nat
  && (count_label "url" cols =? 1)%nat
  && (count_label "content" cols <=? 1)%nat.

Definition user_pos (cols : list string) : nat := first_pos "userId" cols.
Definition title_pos (cols : list string) : nat := first_pos "title" cols.
Definition url_pos (cols : list string) : nat := first_pos "url" cols.
Definition content_pos (cols : list string) : nat := first_pos "content" cols.

(** Content of a group: the content cell of its first row, or [''] in a
    frame without a content column. *)
Definition group_content (cols : list string) (rs : list row) : pyval :=
  if has_column "content" cols
  then match rs with
       | r :: _ => py (cell_at (content_pos cols) r)
       | [] => PNone
       end
  else PStr "".

(** Content of an image: the content cell of its own row; the group's
    content only in a frame without a content column. *)
Definition item_content (cols : list string) (prompt_content : pyval) (r : row) : pyval :=
  if has_column "content" cols then py (cell_at (content_pos cols) r)
  else prompt_content.

Definition image_dict (cols : list string) (prompt_content : pyval) (r : row) : pyval :=
  PDict [(PStr "url", py (cell_at (url_pos cols) r));
         (PStr "content", item_content cols prompt_content r);
         (PStr "original_row_index", PInt (fst r))].

Definition prompt_dict (cols : list string) (title : cell) (rs : list row) : pyval :=
  PDict [(PStr "title", py title);
         (PStr "content", group_content cols rs);
         (PStr "images", PList (map (image_dict cols (group_content cols rs)) rs))].

(** Rows of the frame with user [u]; among them, rows with title [t]. *)
Definition user_rows (df : DataFrame) (u : cell) : list row :=
  group_rows (user_pos (columns df)) u (rows df).

Definition members (df : DataFrame) (u t : cell) : list row :=
  group_rows (title_pos (columns df)) t (user_rows df u).

(** The users of the frame and the titles of a user, in the order in
    which [groupby] yields them. *)
Definition users_of (df : DataFrame) : list cell :=
  group_keys (user_pos (columns df)) (rows df).

Definition titles_of (df : DataFrame) (u : cell) : list cell :=
  group_keys (title_pos (columns df)) (user_rows df u).

(** The two dictionaries that the loops create and then fill. *)
Definition user_state (user_id_str : string) (prompts : dict) : pyval :=
  PDict [(PStr "userId", PStr user_id_str); (PStr "prompts", PDict prompts)].

Definition prompt_state (title content : pyval) (images : list pyval) : pyval :=
  PDict [(PStr "title", title); (PStr "content", content); (PStr "images", PList images)].

Definition user_dict (df : DataFrame) (u : cell) : pyval :=
  PDict [(PStr "userId", PStr (str u));
         (PStr "prompts",
          PDict (map (fun t => (py t, prompt_dict (columns df) t (members df u t)))
                     (titles_of df u)))].

(** Keys that Python compares as they are written: strings and
    integers. *)
Definition plain_key (k : pyval) : Prop :=
  match k with
  | PStr _ | PInt _ => True
  | _ => False
  end.

(** Successive assignments [d[k] = v] into an empty dictionary. *)
Definition dict_of (kvs : list (pyval * pyval)) : dict :=
  fold_left (fun d kv => dict_set (fst kv) (snd kv) d) kvs [].

Definition user_entries (df : DataFrame) : list (pyval * pyval) :=
  map (fun u => (PStr (str u), user_dict df u)) (users_of df).

Definition hierarchy_of (df : DataFrame) : pyval :=
  PDict (dict_of (user_entries df)).

(** No two users of the frame are rendered by [str] as the same string
    (as when the column holds only strings, or only integers). *)
Fixpoint distinct_strings (l : list string) : bool :=
  match l with
  | [] => true
  | s :: l' => negb (existsb (String.eqb s) l') && distinct_strings l'
  end.

Definition distinct_renderings (df : DataFrame) : bool :=
  distinct_strings (map str (users_of df)).

(** Keys sorted as [groupby] sorts them. *)
Definition ascending (l : list cell) : Prop :=
  Sorted (fun a b => cell_leb a b = true) l /\ NoDup l.

(* ----------------------------------------------------------------- *)
(** *** Reading a hierarchy *)

(** [o.get(k, default)] on a dictionary, [default] on anything else. *)
Definition field (o : pyval) (k : string) (default : pyval) : pyval :=
  match o with
  | PDict d => match dict_get (PStr k) d with Some v => v | None => default end
  | _ => default
  end.

Definition entries (o : pyval) : dict :=
  match o with PDict d => d | _ => [] end.

Definition elements (o : pyval) : list pyval :=
  match o with PList l => l | _ => [] end.

Definition keys (o : pyval) : list pyval := map fst (entries o).

(** [h[u]['prompts'][t]['images']], when every step is there. *)
Definition images_at (h : pyval) (u t : pyval) : option (list pyval) :=
  match dict_get u (entries h) with
  | Some user =>
      match dict_get (PStr "prompts") (entries user) with
      | Some prompts =>
          match dict_get t (entries prompts) with
          | Some prompt =>
              match dict_get (PStr "images") (entries prompt) with
              | Some (PList imgs) => Some imgs
              | _ => None
              end
          | None => None
          end
      | None => None
      end
  | None => None
  end.

(** Titles of user [u] in the order in which a walk over
    [h[u]['prompts']] meets them. *)
Definition prompt_titles (h : pyval) (u : pyval) : option (list pyval) :=
  match dict_get u (entries h) with
  | Some user =>
      match dict_get (PStr "prompts") (entries user) with
      | Some prompts => Some (keys prompts)
      | None => None
      end
  | None => None
  end.

(* ----------------------------------------------------------------- *)
(** *** The flat records as a value *)

Definition is_dict (o : pyval) : bool :=
  match o with PDict _ => true | _ => false end.

Definition is_list (o : pyval) : bool :=
  match o with PList _ => true | _ => false end.

(** A hierarchy that the flattening loop can walk: dictionaries down to
    the images, which sit in a list. *)
Definition walkable_prompt (prompt_info : pyval) : bool :=
  is_dict prompt_info
  && is_list (field prompt_info "images" (PList []))
  && forallb is_dict (elements (field prompt_info "images" (PList []))).

Definition walkable_user (user_info : pyval) : bool :=
  is_dict user_info
  && is_dict (field user_info "prompts" (PDict []))
  && forallb (fun kv => walkable_prompt (snd kv))
             (entries (field user_info "prompts" (PDict []))).

Definition walkable (users_data : pyval) : bool :=
  is_dict users_data
  && forallb (fun kv => walkable_user (snd kv)) (entries users_data).

Definition record_of (user_id title prompt_info img : pyval) : pyval :=
  flat_row user_id title
           (field prompt_info "content" (PStr ""))
           (field img "url" (PStr ""))
           (field img "is_defective" (PBool false))
           (field img "review_comment" (PStr "")).

Definition prompt_records (user_id title prompt_info : pyval) : list pyval :=
  map (record_of user_id title prompt_info)
      (elements (field prompt_info "images" (PList []))).

Definition user_records (user_id user_info : pyval) : list pyval :=
  flat_map (fun kv => prompt_records user_id (fst kv) (snd kv))
           (entries (field user_info "prompts" (PDict []))).

(** One record per image, users, prompts and images in the order of
    their containers. *)
Definition records_of (users_data : pyval) : list pyval :=
  flat_map (fun kv => user_records (fst kv) (snd kv)) (entries users_data).




(** The test of lines 139-141: the image is written to [flat_data]. *)
Definition kept (reviewed_only img : pyval) : bool :=
  negb (truthy reviewed_only
        && (negb (truthy (field img "is_defective" (PBool false)))
            && negb (truthy (field img "review_comment" (PStr ""))))).

(** The records of the images that pass the test. *)
Definition selected (reviewed_only users_data : pyval) : list pyval :=
  flat_map (fun u =>
    flat_map (fun p =>
      map (record_of (fst u) (fst p) (snd p))
          (filter (kept reviewed_only) (elements (field (snd p) "images" (PList [])))))
      (entries (field (snd u) "prompts" (PDict []))))
    (entries users_data).

(* ----------------------------------------------------------------- *)
(** *** Trimmed strings *)

Fixpoint all_space (s : string) : bool :=
  match s with
  | EmptyString => true
  | String c s' => PyStr.isspace c && all_space s'
  end.

(** The string does not begin, or does not end, with white space. *)
Definition starts_clean (s : string) : bool :=
  match s with
  | EmptyString => true
  | String c _ => negb (PyStr.isspace c)
  end.

Fixpoint ends_clean (s : string) : bool :=
  match s with
  | EmptyString => true
  | String c EmptyString => negb (PyStr.isspace c)
  | String _ s' => ends_clean s'
  end.

(** A label after reconciliation: the label it was, or a recognized
    name that it equals up to case. *)
Definition reconciled (old new : string) : Prop :=
  new = old \/ (In new required /\ PyStr.lower old = PyStr.lower new).

(* ----------------------------------------------------------------- *)
(** *** Sample data *)

(** Scenario A of the specification. *)
Definition scenario_A : DataFrame :=
  mkDataFrame ["userId"; "url"; "title"; "content"]
    [ (0%Z, [CStr "u1"; CStr "http://a"; CStr "T1"; CStr "desc"]);
      (1%Z, [CStr "u1"; CStr "http://b"; CStr "T1"; CStr ""]) ].

(** Scenario B: the hierarchy of scenario A, image [http://b] marked
    defective during review. *)
Definition scenario_B : pyval :=
  PDict [(PStr "u1",
          PDict [(PStr "userId", PStr "u1");
                 (PStr "prompts",
                  PDict [(PStr "T1",
                          PDict [(PStr "title", PStr "T1");
                                 (PStr "content", PStr "desc");
                                 (PStr "images",
                                  PList [PDict [(PStr "url", PStr "http://a");
                                                (PStr "content", PStr "desc");
                                                (PStr "original_row_index", PInt 0)];
                                         PDict [(PStr "url", PStr "http://b");
                                                (PStr "content", PStr "");
                                                (PStr "original_row_index", PInt 1);
                                                (PStr "is_defective", PBool true)]])])])])].

(** Scenario C: a header with stray white space and mixed case. *)
Definition scenario_C : DataFrame :=
  mkDataFrame [" UserID "; "url"; "Title"; "content"]
    [ (0%Z, [CInt 123; CStr "http://a"; CStr "T1"; NaN]) ].

Definition sample_csv : FileStorage := mkFile "images.csv" [].
Definition sample_reader (frame : DataFrame) (_ : list Byte.byte) : DataFrame + string :=
  inl frame.

(** The file name carries none of the three recognized suffixes. *)
Definition unrecognized (name : string) : Prop :=
  PyStr.endswith name ".csv" = false
  /\ PyStr.endswith name ".xls" = false
  /\ PyStr.endswith name ".xlsx" = false.

Definition sample_txt : FileStorage := mkFile "notes.txt" [].
Definition failing_reader (_ : list Byte.byte) : DataFrame + string :=
  inr "No columns to parse from file".

(* ----------------------------------------------------------------- *)
(** *** Field names *)

Definition prompts_in (user : pyval) : dict :=
  entries (field user "prompts" (PDict [])).

Definition images_in (prompt : pyval) : list pyval :=
  elements (field prompt "images" (PList [])).

(** Every user, prompt and image of [h] is a dictionary with exactly
    the given field names, in the given order. *)
Definition hierarchy_fields (h : pyval) (user_fields prompt_fields image_fields : list string)
  : Prop :=
  forall k user, In (k, user) (entries h) ->
    keys user = map PStr user_fields
    /\ forall t prompt, In (t, prompt) (prompts_in user) ->
         keys prompt = map PStr prompt_fields
         /\ forall img, In img (images_in prompt) ->
              keys img = map PStr image_fields.


(* ----------------------------------------------------------------- *)
(** *** Order and content, as the specification words them *)

(** Distinct titles of user [u] in the order in which the rows of the
    frame first show them. *)
Definition first_seen_titles (df : DataFrame) (u : cell) : list cell :=
  unique (filter notna (map (cell_at (title_pos (columns df))) (user_rows df u))).

(** A walk over the prompts of every user meets the titles in
    first-seen order. *)
Definition titles_first_seen (df : DataFrame) (h : pyval) : Prop :=
  forall u, In u (users_of df) ->
    prompt_titles h (PStr (str u)) = Some (map py (first_seen_titles df u)).

(** The image built for a row with content [""] takes the content of
    the first row of its group. *)
Definition content_falls_back (df : DataFrame) (h : pyval) : Prop :=
  forall u t first rest i later imgs img,
    members df u t = first :: rest ->
    nth_error (first :: rest) i = Some later ->
    cell_at (content_pos (columns df)) later = CStr "" ->
    images_at h (PStr (str u)) (py t) = Some imgs ->
    nth_error imgs i = Some img ->
    field img "content" PNone = py (cell_at (content_pos (columns df)) first).

(** The content that the image of row [r] carries. *)
Definition own_content (cols : list string) (r : row) : pyval :=
  if has_column "content" cols then py (cell_at (content_pos cols) r) else PStr "".

(** Titles met in the order T2, T1. *)
Definition unsorted_titles : DataFrame :=
  mkDataFrame ["userId"; "url"; "title"; "content"]
    [ (0%Z, [CStr "u1"; CStr "http://a"; CStr "T2"; CStr "second"]);
      (1%Z, [CStr "u1"; CStr "http://b"; CStr "T1"; CStr "first"]) ].

(* ----------------------------------------------------------------- *)
(** *** Rows and records *)

Definition user_key (df : DataFrame) (r : row) : pyval :=
  PStr (str (cell_at (user_pos (columns df)) r)).

Definition title_key (df : DataFrame) (r : row) : pyval :=
  py (cell_at (title_pos (columns df)) r).

(** Row [r] has its image in the hierarchy, in the list found under
    its user and its title. *)
Definition placed (df : DataFrame) (h : pyval) (r : row) : Prop :=
  exists imgs prompt_content,
    images_at h (user_key df r) (title_key df r) = Some imgs
    /\ In (image_dict (columns df) prompt_content r) imgs.

(** The rows of the frame group after group: users in the order of
    [users_of], the titles of a user in the order of [titles_of], the
    rows of a group in the order of the frame. *)
Definition grouped (df : DataFrame) : list row :=
  flat_map (fun u => flat_map (fun t => members df u t) (titles_of df u)) (users_of df).

(** The record that an untouched row comes back as. *)
Definition row_record (cols : list string) (r : row) : pyval :=
  flat_row (PStr (str (cell_at (user_pos cols) r)))
           (py (cell_at (title_pos cols) r))
           (py (cell_at (content_pos cols) r))
           (py (cell_at (url_pos cols) r))
           (PBool false) (PStr "").

(** Rows with the same user and title have the same content. *)
Definition uniform_content (df : DataFrame) : bool :=
  let cols := columns df in
  forallb (fun r1 =>
    forallb (fun r2 =>
      implb (cell_eqb (cell_at (user_pos cols) r1) (cell_at (user_pos cols) r2)
             && cell_eqb (cell_at (title_pos cols) r1) (cell_at (title_pos cols) r2))
            (cell_eqb (cell_at (content_pos cols) r1) (cell_at (content_pos cols) r2)))
      (rows df))
    (rows df).

(** Two users, the later in key order first. *)
Definition two_users : DataFrame :=
  mkDataFrame ["userId"; "url"; "title"; "content"]
    [ (0%Z, [CStr "u2"; CStr "http://a"; CStr "T1"; CStr "x"]);
      (1%Z, [CStr "u1"; CStr "http://b"; CStr "T1"; CStr "y"]) ].

(** A frame with a missing user and a missing title. *)
Definition missing_keys : DataFrame :=
  mkDataFrame ["userId"; "url"; "title"; "content"]
    [ (0%Z, [NaN; CStr "http://a"; CStr "T1"; CStr "x"]);
      (1%Z, [CStr "u1"; CStr "http://b"; NaN; NaN]) ].

(** The records come back in the order of the rows of the frame. *)
Definition rows_come_back_in_order (df : DataFrame) (records : list pyval) : Prop :=
  records = map (row_record (columns df)) (rows df).

(* ================================================================= *)
(** ** The routes *)

(** What a view returns: the status code, and the body as the value
    handed to [jsonify], as the exception whose text is reported under
    ['error'], or as the file handed to [send_file]. *)
Inductive body : Type :=
| Json (v : pyval)
| JsonError (e : exn)
| Attachment (download_name mimetype : string) (content : list Byte.byte).

Record response : Type := mkResponse {
  status : nat;
  payload : body
}.

(** [request.files]: the uploaded parts with their field names. *)
Definition files_get (name : string) (files : list (string * FileStorage))
  : option FileStorage :=
  match find (fun part => String.eqb name (fst part)) files with
  | Some part => Some (snd part)
  | None => None
  end.

Section Routes.

(** The pandas readers and writers, and Flask's JSON encoder: each
    returns its result or raises. *)
Variable read_csv : list Byte.byte -> DataFrame + string.
Variable read_excel : list Byte.byte -> DataFrame + string.
Variable jsonify : pyval -> result pyval.
Variable to_csv : list pyval -> result (list Byte.byte).
Variable to_excel : list pyval -> result (list Byte.byte).

(** Lines 109-112, the body of the [try]. *)
Definition upload_steps (file : FileStorage) : result pyval :=
  df <- parse_file read_csv read_excel file ;;
  let df := clean_data df in
  data <- transform_to_hierarchy df ;;
  jsonify (PDict [(PStr "status", PStr "success"); (PStr "data", data)]).

(** [upload_file], lines 101-114. *)
Definition upload_file (files : list (string * FileStorage)) : response :=
  match files_get "file" files with
  | None => mkResponse 400 (Json (PDict [(PStr "error", PStr "No file part")]))
  | Some file =>
      if String.eqb (filename file) ""
      then mkResponse 400 (Json (PDict [(PStr "error", PStr "No selected file")]))
      else match upload_steps file with
           | Ok v => mkResponse 200 (Json v)
           | Raise e => mkResponse 500 (JsonError e)
           end
  end.

(** Lines 120-173, the body of the [try], up to the arguments of
    [send_file]. *)
Definition export_steps (req_data : pyval)
  : result (string * string * list Byte.byte) :=
  users_data <- py_get req_data "data" (PDict []) ;;
  export_format <- py_get req_data "format" (PStr "xlsx") ;;
  reviewed_only <- py_get req_data "reviewed_only" (PBool false) ;;
  flat_data <- flatten users_data reviewed_only ;;
  if key_eqb export_format (PStr "csv")
  then content <- to_csv flat_data ;;
       Ok ("reviewed_images.csv", "text/csv", content)
  else content <- to_excel flat_data ;;
       Ok ("reviewed_images.xlsx",
           "application/vnd.openxmlformats-officedocument.spreadsheetml.sheet",
           content).

(** [export_file], lines 117-184. *)
Definition export_file (req_data : pyval) : response :=
  match export_steps req_data with
  | Ok (fname, mimetype, content) => mkResponse 200 (Attachment fname mimetype content)
  | Raise e => mkResponse 500 (JsonError e)
  end.

End Routes.

(* ----------------------------------------------------------------- *)
(** *** Further predicates and samples *)

(** The test of lines 139-141, read on the record: the filter is off,
    or one of the two annotations is true in Python's sense. *)
Definition passes (reviewed_only record : pyval) : bool :=
  negb (truthy reviewed_only)
  || truthy (field record "is_defective" (PBool false))
  || truthy (field record "review_comment" (PStr "")).

(** The row has a user and a title. *)
Definition has_keys (df : DataFrame) (r : row) : bool :=
  notna (cell_at (user_pos (columns df)) r)
  && notna (cell_at (title_pos (columns df)) r).

(** The user loses its [userId] field to [v]; its key is not touched. *)
Definition with_user_id (v : pyval) (entry : pyval * pyval) : pyval * pyval :=
  (fst entry, PDict (dict_set (PStr "userId") v (entries (snd entry)))).

(** The integer 7 and the string ["7"] as users. *)
Definition colliding_users : DataFrame :=
  mkDataFrame ["userId"; "url"; "title"; "content"]
    [ (0%Z, [CInt 7; CStr "http://a"; CStr "T1"; CStr "x"]);
      (1%Z, [CStr "7"; CStr "http://b"; CStr "T1"; CStr "y"]) ].

(** A frame read before any cell is filled. *)
Definition unfilled : DataFrame :=
  mkDataFrame ["userId"; "url"; "title"; "content"]
    [ (0%Z, [NaN; CStr "http://a"; CStr "T1"; CStr "x"]);
      (1%Z, [CStr "u1"; CStr "http://b"; CStr "T1"; CStr "y"]);
      (2%Z, [CStr "u1"; CStr "http://c"; NaN; CStr "z"]) ].

(** Frames that lack a label. *)
Definition no_title : DataFrame :=
  mkDataFrame ["userId"; "url"; "content"]
    [ (0%Z, [CStr "u1"; CStr "http://a"; CStr "x"]) ].

Definition no_url : DataFrame :=
  mkDataFrame ["userId"; "title"; "content"]
    [ (0%Z, [NaN; CStr "T0"; CStr "w"]);
      (1%Z, [CStr "u1"; CStr "T1"; CStr "x"]) ].

Definition sample_jsonify (v : pyval) : result pyval := Ok v.
Definition sample_writer (_ : list pyval) : result (list Byte.byte) := Ok [].

(** The label equals the recognized name [m] up to case. *)
Definition matches (m c : string) : bool :=
  String.eqb (PyStr.lower c) (PyStr.lower m).

(** Two spellings of the user column, one of them twice. *)
Definition two_spellings : list string :=
  ["USERID"; "url"; "UserId"; "title"; "USERID"; "content"].

(** The frame cut down to the four recognized columns. *)
Definition project (df : DataFrame) : DataFrame :=
  let cols := columns df in
  mkDataFrame ["userId"; "url"; "title"; "content"]
    (map (fun r => (fst r, [cell_at (user_pos cols) r; cell_at (url_pos cols) r;
                            cell_at (title_pos cols) r; cell_at (content_pos cols) r]))
         (rows df)).

(** Scenario A with two columns more. *)
Definition scenario_A_wide : DataFrame :=
  mkDataFrame ["note"; "userId"; "url"; "title"; "content"; "URL"]
    [ (0%Z, [CStr "n0"; CStr "u1"; CStr "http://a"; CStr "T1"; CStr "desc"; CInt 1]);
      (1%Z, [CStr "n1"; CStr "u1"; CStr "http://b"; CStr "T1"; CStr ""; NaN]) ].

(** A header in which two labels trim to [userId]. *)
Definition repeated_user_label : DataFrame :=
  mkDataFrame ["userId"; "userId "; "url"; "title"; "content"]
    [ (0%Z, [CStr "u1"; CStr "u1"; CStr "http://a"; CStr "T1"; CStr "x"]) ].

(* ================================================================= *)
(** * Facts *)

(** ** Labels *)

Lemma has_column_count (label : string) (cols : list string) :
  has_column label cols = negb (count_label label cols =? 0)%nat.
Proof.
  unfold has_column, count_label.
  induction cols as [|c cols IH]; simpl; [reflexivity|].
  destruct (String.eqb label c); simpl; [reflexivity | exact IH].
Qed.

Lemma get_loc_one (label : string) (cols : list string) :
  count_label label cols = 1 -> get_loc label cols = Ok (first_pos label cols).
Proof. unfold get_loc; intros ->; reflexivity. Qed.

Lemma count_one_has (label : string) (cols : list string) :
  count_label label cols = 1 -> has_column label cols = true.
Proof. intros H; rewrite has_column_count, H; reflexivity. Qed.

Lemma has_column_In (label : string) (cols : list string) :
  has_column label cols = true <-> In label cols.
Proof.
  unfold has_column; rewrite existsb_exists; split.
  - intros [c [Hc He]]; apply String.eqb_eq in He; subst; exact Hc.
  - intros H; exists label; split; [exact H | apply String.eqb_refl].
Qed.

Lemma well_labelled_inv (cols : list string) :
  well_labelled cols = true ->
  count_label "userId" cols = 1 /\ count_label "title" cols = 1
  /\ count_label "url" cols = 1 /\ count_label "content" cols <= 1.
Proof.
  unfold well_labelled; intros H.
  repeat (apply andb_prop in H; destruct H as [H ?]).
  repeat match goal with
         | E : (_ =? _)%nat = true |- _ => apply Nat.eqb_eq in E
         | E : (_ <=? _)%nat = true |- _ => apply Nat.leb_le in E
         end.
  auto.
Qed.

(** ** Dictionaries *)

Lemma key_eqb_eq (a b : pyval) :
  plain_key a -> plain_key b -> key_eqb a b = true <-> a = b.
Proof.
  destruct a, b; simpl; intros Ha Hb; try contradiction;
    split; intros H; try discriminate; try congruence.
  - apply Z.eqb_eq in H; congruence.
  - injection H as ->; apply Z.eqb_refl.
  - apply String.eqb_eq in H; congruence.
  - injection H as ->; apply String.eqb_refl.
Qed.

Lemma key_eqb_refl (k : pyval) : plain_key k -> key_eqb k k = true.
Proof. intros H; apply key_eqb_eq; auto. Qed.

Lemma plain_py (c : cell) : notna c = true -> plain_key (py c).
Proof. destruct c; simpl; intros H; [discriminate | exact I | exact I]. Qed.

Lemma py_inj (a b : cell) : py a = py b -> a = b.
Proof. destruct a, b; simpl; congruence. Qed.

(** Mutating the object that was just stored under [k]. *)
Lemma dict_update_set (k v v' : pyval) (f : pyval -> result pyval) (d : dict) :
  key_eqb k k = true -> f v = Ok v' ->
  dict_update k f (dict_set k v d) = Ok (dict_set k v' d).
Proof.
  intros Hk Hf.
  induction d as [|[k0 v0] d IH]; simpl.
  - rewrite Hk, Hf; reflexivity.
  - destruct (key_eqb k k0) eqn:E; simpl; rewrite E.
    + rewrite Hf; reflexivity.
    + rewrite IH; reflexivity.
Qed.

Lemma at_key_set (k v v' : pyval) (f : pyval -> result pyval) (d : dict) :
  key_eqb k k = true -> f v = Ok v' ->
  at_key k f (PDict (dict_set k v d)) = Ok (PDict (dict_set k v' d)).
Proof.
  intros Hk Hf; unfold at_key.
  rewrite (dict_update_set k v v' f d Hk Hf); reflexivity.
Qed.

Lemma dict_set_fresh (k v : pyval) (d : dict) :
  (forall k', In k' (map fst d) -> key_eqb k k' = false) ->
  dict_set k v d = d ++ [(k, v)].
Proof.
  induction d as [|[k0 v0] d IH]; simpl; intros H; [reflexivity|].
  rewrite (H k0 (or_introl eq_refl)).
  rewrite IH; [reflexivity|].
  intros k' Hk'; apply H; right; exact Hk'.
Qed.

Lemma dict_set_keys_In (k v : pyval) (d : dict) (k' : pyval) :
  In k' (map fst (dict_set k v d)) -> k' = k \/ In k' (map fst d).
Proof.
  induction d as [|[k0 v0] d IH]; simpl.
  - intros [H|[]]; left; congruence.
  - destruct (key_eqb k k0); simpl.
    + intros [H|H]; right; [left; exact H | right; exact H].
    + intros [H|H]; [right; left; exact H|].
      destruct (IH H) as [H'|H']; [left; exact H' | right; right; exact H'].
Qed.

(** Every entry of the dictionary after [d[k] = v] is the new one or
    was there before. *)
Lemma dict_set_In (k v : pyval) (d : dict) (k' v' : pyval) :
  plain_key k -> Forall plain_key (map fst d) ->
  In (k', v') (dict_set k v d) -> (k', v') = (k, v) \/ In (k', v') d.
Proof.
  intros Hk.
  induction d as [|[k0 v0] d IH]; simpl; intros Hd.
  - intros [H|[]]; left; congruence.
  - inversion Hd as [|? ? Hk0 Hd']; subst.
    destruct (key_eqb k k0) eqn:E; simpl.
    + apply key_eqb_eq in E; auto; subst k0.
      intros [H|H]; [left; congruence | right; right; exact H].
    + intros [H|H]; [right; left; exact H|].
      destruct (IH Hd' H) as [H'|H']; [left; exact H' | right; right; exact H'].
Qed.

Lemma dict_set_plain (k v : pyval) (d : dict) :
  plain_key k -> Forall plain_key (map fst d) ->
  Forall plain_key (map fst (dict_set k v d)).
Proof.
  intros Hk Hd; apply Forall_forall; intros k' Hk'.
  destruct (dict_set_keys_In _ _ _ _ Hk') as [->|H]; [exact Hk|].
  rewrite Forall_forall in Hd; auto.
Qed.



(** *** [dict_of] *)

Lemma fold_dict_set_In (kvs : list (pyval * pyval)) (d : dict) (k v : pyval) :
  Forall plain_key (map fst kvs) -> Forall plain_key (map fst d) ->
  In (k, v) (fold_left (fun d kv => dict_set (fst kv) (snd kv) d) kvs d) ->
  In (k, v) d \/ In (k, v) kvs.
Proof.
  revert d; induction kvs as [|[k0 v0] kvs IH]; simpl; intros d Hk Hd H; [left; exact H|].
  inversion Hk as [|? ? Hk0 Hk']; subst.
  destruct (IH _ Hk' (dict_set_plain _ v0 _ Hk0 Hd) H) as [H1|H1].
  - destruct (dict_set_In _ _ _ _ _ Hk0 Hd H1) as [H2|H2]; [right; left; congruence | left; exact H2].
  - right; right; exact H1.
Qed.

Lemma dict_of_In (kvs : list (pyval * pyval)) (k v : pyval) :
  Forall plain_key (map fst kvs) -> In (k, v) (dict_of kvs) -> In (k, v) kvs.
Proof.
  intros Hk H; destruct (fold_dict_set_In kvs [] k v Hk (Forall_nil _) H) as [[]|H']; exact H'.
Qed.



Lemma fold_dict_set_distinct (kvs : list (pyval * pyval)) (d : dict) :
  Forall plain_key (map fst (d ++ kvs)) -> NoDup (map fst (d ++ kvs)) ->
  fold_left (fun d kv => dict_set (fst kv) (snd kv) d) kvs d = d ++ kvs.
Proof.
  revert d; induction kvs as [|[k0 v0] kvs IH]; simpl; intros d Hp Hn.
  - rewrite app_nil_r; reflexivity.
  - assert (E : d ++ (k0, v0) :: kvs = (d ++ [(k0, v0)]) ++ kvs)
      by (rewrite <- app_assoc; reflexivity).
    rewrite dict_set_fresh.
    + rewrite IH; rewrite <- E; auto.
    + intros k' Hk'.
      destruct (key_eqb k0 k') eqn:Ek; [|reflexivity].
      rewrite map_app in Hp, Hn; simpl in Hp, Hn.
      apply key_eqb_eq in Ek.
      * subst k'. apply NoDup_remove_2 in Hn.
        exfalso; apply Hn; apply in_or_app; left; exact Hk'.
      * rewrite Forall_forall in Hp; apply Hp; apply in_or_app; right; left; reflexivity.
      * rewrite Forall_forall in Hp; apply Hp; apply in_or_app; left; exact Hk'.
Qed.

(** Assignments under distinct keys leave the entries in the order of
    the assignments. *)
Lemma dict_of_distinct (kvs : list (pyval * pyval)) :
  Forall plain_key (map fst kvs) -> NoDup (map fst kvs) -> dict_of kvs = kvs.
Proof. intros Hp Hn; exact (fold_dict_set_distinct kvs [] Hp Hn). Qed.

(** Lookup in a dictionary with distinct keys. *)
Lemma dict_get_In (k v : pyval) (d : dict) :
  Forall plain_key (map fst d) -> NoDup (map fst d) -> plain_key k ->
  In (k, v) d -> dict_get k d = Some v.
Proof.
  intros Hp Hn Hk; induction d as [|[k0 v0] d IH]; simpl; [intros []|].
  inversion Hp as [|? ? Hk0 Hp']; inversion Hn as [|? ? Hnot Hn']; subst.
  intros [H|H].
  - injection H as -> ->; rewrite key_eqb_refl; auto.
  - destruct (key_eqb k k0) eqn:E.
    + apply key_eqb_eq in E; auto; subst k0.
      exfalso; apply Hnot; apply in_map_iff; exists (k, v); auto.
    + apply IH; auto.
Qed.

(** ** [groupby] *)

Lemma cell_eqb_eq (a b : cell) : cell_eqb a b = true <-> a = b.
Proof.
  destruct a, b; simpl; split; intros H; try discriminate; try congruence.
  - apply Z.eqb_eq in H; congruence.
  - injection H as ->; apply Z.eqb_refl.
  - apply String.eqb_eq in H; congruence.
  - injection H as ->; apply String.eqb_refl.
Qed.

Lemma cell_eqb_refl (a : cell) : cell_eqb a a = true.
Proof. apply cell_eqb_eq; reflexivity. Qed.

Lemma cell_leb_total (a b : cell) : cell_leb a b = true \/ cell_leb b a = true.
Proof.
  destruct a as [|x|x], b as [|y|y]; simpl; auto.
  - destruct (Z.leb_spec x y); [left; reflexivity|].
    right; apply Z.leb_le; lia.
  - apply String.leb_total.
Qed.

(** *** Sorting the keys *)

Lemma insert_key_perm (k : cell) (l : list cell) :
  Permutation (k :: l) (insert_key k l).
Proof.
  induction l as [|x l IH]; simpl; [reflexivity|].
  destruct (cell_leb k x); [reflexivity|].
  rewrite perm_swap; apply perm_skip; exact IH.
Qed.

Lemma sort_keys_perm (l : list cell) : Permutation l (sort_keys l).
Proof.
  induction l as [|x l IH]; simpl; [reflexivity|].
  rewrite <- insert_key_perm; apply perm_skip; exact IH.
Qed.

Lemma insert_key_sorted (k : cell) (l : list cell) :
  Sorted (fun a b => cell_leb a b = true) l ->
  Sorted (fun a b => cell_leb a b = true) (insert_key k l).
Proof.
  induction l as [|x l IH]; simpl; intros H.
  - constructor; constructor.
  - destruct (cell_leb k x) eqn:E.
    + constructor; [exact H | constructor; exact E].
    + inversion H as [|? ? Hs Hh]; subst.
      constructor; [apply IH; exact Hs|].
      assert (Hxk : cell_leb x k = true)
        by (destruct (cell_leb_total k x) as [C|C]; congruence).
      destruct l as [|y l]; simpl.
      * constructor; exact Hxk.
      * destruct (cell_leb k y); constructor; [exact Hxk|].
        inversion Hh; assumption.
Qed.

Lemma sort_keys_sorted (l : list cell) :
  Sorted (fun a b => cell_leb a b = true) (sort_keys l).
Proof.
  induction l as [|x l IH]; simpl; [constructor|].
  apply insert_key_sorted; exact IH.
Qed.

(** *** Distinct keys *)

Lemma unique_In (l : list cell) (x : cell) : In x (unique l) <-> In x l.
Proof.
  induction l as [|y l IH]; simpl; [tauto|].
  rewrite filter_In, IH.
  split.
  - intros [H|[H _]]; auto.
  - intros [H|H]; [left; exact H|].
    destruct (cell_eqb y x) eqn:E.
    + left; apply cell_eqb_eq; exact E.
    + right; split; [exact H | reflexivity].
Qed.

Lemma NoDup_filter_cell (f : cell -> bool) (l : list cell) :
  NoDup l -> NoDup (filter f l).
Proof.
  induction 1 as [|x l Hx Hn IH]; simpl; [constructor|].
  destruct (f x); [|exact IH].
  constructor; [|exact IH].
  rewrite filter_In; tauto.
Qed.

Lemma unique_NoDup (l : list cell) : NoDup (unique l).
Proof.
  induction l as [|y l IH]; simpl; constructor.
  - rewrite filter_In; intros [_ H].
    rewrite cell_eqb_refl in H; discriminate.
  - apply NoDup_filter_cell; exact IH.
Qed.

Lemma group_keys_In (p : nat) (rs : list row) (k : cell) :
  In k (group_keys p rs) <-> notna k = true /\ exists r, In r rs /\ cell_at p r = k.
Proof.
  unfold group_keys.
  split.
  - intros H.
    apply (Permutation_in _ (Permutation_sym (sort_keys_perm _))) in H.
    apply unique_In, filter_In in H; destruct H as [H Hn].
    apply in_map_iff in H; destruct H as [r [E Hr]].
    split; [exact Hn | exists r; auto].
  - intros [Hn [r [Hr E]]].
    apply (Permutation_in _ (sort_keys_perm _)).
    apply unique_In, filter_In; split; [|exact Hn].
    apply in_map_iff; exists r; auto.
Qed.

Lemma group_keys_ascending (p : nat) (rs : list row) : ascending (group_keys p rs).
Proof.
  split; [apply sort_keys_sorted|].
  eapply Permutation_NoDup; [apply sort_keys_perm | apply unique_NoDup].
Qed.

Lemma group_keys_notna (p : nat) (rs : list row) :
  Forall (fun k => notna k = true) (group_keys p rs).
Proof. apply Forall_forall; intros k H; apply group_keys_In in H; tauto. Qed.

Lemma group_rows_In (p : nat) (k : cell) (rs : list row) (r : row) :
  In r (group_rows p k rs) <-> In r rs /\ cell_at p r = k.
Proof. unfold group_rows; rewrite filter_In, cell_eqb_eq; tauto. Qed.

Lemma group_rows_nonempty (p : nat) (k : cell) (rs : list row) :
  In k (group_keys p rs) -> group_rows p k rs <> [].
Proof.
  intros H E; apply group_keys_In in H; destruct H as [_ [r [Hr Hk]]].
  assert (Hin : In r (group_rows p k rs)) by (apply group_rows_In; auto).
  rewrite E in Hin; exact Hin.
Qed.

Lemma groupby_one (label : string) (df : DataFrame) :
  count_label label (columns df) = 1 ->
  groupby label df =
  Ok (map (fun k => (k, mkDataFrame (columns df)
                          (group_rows (first_pos label (columns df)) k (rows df))))
          (group_keys (first_pos label (columns df)) (rows df))).
Proof. intros H; unfold groupby; rewrite (get_loc_one _ _ H); reflexivity. Qed.

(** The groups hold every row whose key is not missing, once each. *)
Lemma groups_partition (p : nat) (rs : list row) (ks : list cell) :
  NoDup ks -> (forall r, In r rs -> In (cell_at p r) ks) ->
  Permutation (flat_map (fun k => group_rows p k rs) ks) rs.
Proof.
  intros Hn; induction rs as [|r rs IH]; intros Hall.
  - clear; induction ks; simpl; auto.
  - assert (Hk : In (cell_at p r) ks) by (apply Hall; left; reflexivity).
    apply in_split in Hk; destruct Hk as [k1 [k2 Ek]].
    assert (IH' : Permutation (flat_map (fun k => group_rows p k rs) ks) rs)
      by (apply IH; intros; apply Hall; right; assumption).
    assert (Hout : forall l, ~ In (cell_at p r) l ->
              flat_map (fun k => group_rows p k (r :: rs)) l
              = flat_map (fun k => group_rows p k rs) l).
    { induction l as [|k l IHl]; intros Hl; [reflexivity|].
      change (group_rows p k (r :: rs) ++ flat_map (fun k => group_rows p k (r :: rs)) l
              = group_rows p k rs ++ flat_map (fun k => group_rows p k rs) l).
      rewrite IHl by (intros H; apply Hl; right; exact H).
      unfold group_rows at 1; simpl.
      destruct (cell_eqb (cell_at p r) k) eqn:E; [|reflexivity].
      apply cell_eqb_eq in E; exfalso; apply Hl; left; congruence. }
    rewrite Ek in Hn, IH' |- *.
    pose proof (NoDup_remove_2 _ _ _ Hn) as Hnot.
    rewrite flat_map_app in IH' |- *.
    change (Permutation
              (flat_map (fun k => group_rows p k (r :: rs)) k1
               ++ group_rows p (cell_at p r) (r :: rs)
               ++ flat_map (fun k => group_rows p k (r :: rs)) k2) (r :: rs)).
    rewrite !Hout by (intros H; apply Hnot; apply in_or_app; tauto).
    unfold group_rows at 2; simpl; rewrite cell_eqb_refl.
    fold (group_rows p (cell_at p r) rs).
    apply Permutation_sym; simpl.
    apply Permutation_cons_app, Permutation_sym; exact IH'.
Qed.

(** ** The loops of [transform_to_hierarchy] *)

Lemma fold_dict_set_map {X : Type} (K V : X -> pyval) (xs : list X) (d : dict) :
  fold_left (fun d x => dict_set (K x) (V x) d) xs d
  = fold_left (fun d kv => dict_set (fst kv) (snd kv) d) (map (fun x => (K x, V x)) xs) d.
Proof.
  revert d; induction xs as [|x xs IH]; simpl; intros d; [reflexivity | apply IH].
Qed.

Section Loops.

Variable cols : list string.
Variable uid : string.

Hypothesis url_one : count_label "url" cols = 1.
Hypothesis content_most : count_label "content" cols <= 1.

Lemma content_one : has_column "content" cols = true -> count_label "content" cols = 1.
Proof.
  rewrite has_column_count; intros H.
  destruct (count_label "content" cols) as [|[|n]]; simpl in H; [discriminate | reflexivity | lia].
Qed.

(** [users_data[uid]['prompts'][title]['images'].append(x)] *)
Lemma append_image (title x t0 pc : pyval) (imgs : list pyval) (ps us : dict) :
  key_eqb title title = true ->
  at_key (PStr uid)
    (at_key (PStr "prompts") (at_key title (at_key (PStr "images") (append x))))
    (PDict (dict_set (PStr uid)
              (user_state uid (dict_set title (prompt_state t0 pc imgs) ps)) us))
  = Ok (PDict (dict_set (PStr uid)
                 (user_state uid (dict_set title (prompt_state t0 pc (imgs ++ [x])) ps)) us)).
Proof.
  intros Ht.
  apply at_key_set; [simpl; apply String.eqb_refl|].
  unfold user_state, at_key at 1; simpl.
  rewrite (dict_update_set title _ (prompt_state t0 pc (imgs ++ [x])) _ ps Ht);
    reflexivity.
Qed.

(** [users_data[uid]['prompts'][title] = v] *)
Lemma set_prompt (title v : pyval) (ps us : dict) :
  at_key (PStr uid) (at_key (PStr "prompts") (setitem title v))
    (PDict (dict_set (PStr uid) (user_state uid ps) us))
  = Ok (PDict (dict_set (PStr uid) (user_state uid (dict_set title v ps)) us)).
Proof.
  apply at_key_set; [simpl; apply String.eqb_refl | reflexivity].
Qed.

Lemma image_loop_value (title t0 pc : pyval) (rs : list row) :
  key_eqb title title = true ->
  forall (imgs : list pyval) (ps us : dict),
    image_loop (PStr uid) title pc (mkDataFrame cols rs)
      (PDict (dict_set (PStr uid)
                (user_state uid (dict_set title (prompt_state t0 pc imgs) ps)) us))
    = Ok (PDict (dict_set (PStr uid)
                   (user_state uid
                      (dict_set title
                         (prompt_state t0 pc (imgs ++ map (image_dict cols pc) rs)) ps))
                   us)).
Proof.
  intros Ht; unfold image_loop; simpl columns; simpl rows.
  induction rs as [|r rs IH]; intros imgs ps us.
  - simpl; rewrite app_nil_r; reflexivity.
  - cbn [for_each map].
    unfold row_get at 1; rewrite (get_loc_one _ _ url_one); cbn [bind].
    assert (Hc : (if has_column "content" cols then row_get "content" cols r else Ok pc)
                 = Ok (item_content cols pc r)).
    { unfold item_content; destruct (has_column "content" cols) eqn:E; [|reflexivity].
      unfold row_get; rewrite (get_loc_one _ _ (content_one E)); reflexivity. }
    rewrite Hc; cbn [bind].
    rewrite append_image by exact Ht; cbn [bind].
    rewrite IH, <- app_assoc; reflexivity.
Qed.

Lemma prompt_loop_value (groups : list (cell * list row)) :
  Forall (fun g => notna (fst g) = true /\ snd g <> []) groups ->
  forall (ps us : dict),
    prompt_loop (PStr uid) (map (fun g => (fst g, mkDataFrame cols (snd g))) groups)
      (PDict (dict_set (PStr uid) (user_state uid ps) us))
    = Ok (PDict (dict_set (PStr uid)
                   (user_state uid
                      (fold_left (fun ps g => dict_set (py (fst g))
                                                (prompt_dict cols (fst g) (snd g)) ps)
                                 groups ps))
                   us)).
Proof.
  unfold prompt_loop.
  induction 1 as [|[t rs] groups [Ht Hrs] Hall IH]; intros ps us; [reflexivity|].
  cbn [for_each map fst snd] in *.
  simpl columns.
  assert (Hc : (if has_column "content" cols then first_of "content" (mkDataFrame cols rs)
                else Ok (PStr "")) = Ok (group_content cols rs)).
  { unfold group_content; destruct (has_column "content" cols) eqn:E; [|reflexivity].
    unfold first_of; simpl; rewrite (get_loc_one _ _ (content_one E)); simpl.
    destruct rs; [contradiction | reflexivity]. }
  rewrite Hc; cbn [bind].
  rewrite set_prompt; cbn [bind].
  fold (prompt_state (py t) (group_content cols rs) []).
  rewrite image_loop_value by (apply key_eqb_refl, plain_py, Ht).
  cbn [bind app].
  apply IH.
Qed.

End Loops.

Lemma py_keys_distinct (ts : list cell) (V : cell -> pyval) :
  NoDup ts -> Forall (fun k => notna k = true) ts ->
  dict_of (map (fun t => (py t, V t)) ts) = map (fun t => (py t, V t)) ts.
Proof.
  intros Hn Hna; apply dict_of_distinct; rewrite map_map; simpl.
  - apply Forall_forall; intros k Hk; apply in_map_iff in Hk.
    destruct Hk as [t [<- Ht]]; apply plain_py.
    rewrite Forall_forall in Hna; auto.
  - apply Finite.Injective_map_NoDup; [intros a b; apply py_inj | exact Hn].
Qed.

Lemma user_loop_value (df : DataFrame) (uids : list cell) :
  well_labelled (columns df) = true ->
  forall us : dict,
    user_loop (map (fun u => (u, mkDataFrame (columns df) (user_rows df u))) uids) (PDict us)
    = Ok (PDict (fold_left (fun d u => dict_set (PStr (str u)) (user_dict df u) d) uids us)).
Proof.
  intros Hw; apply well_labelled_inv in Hw; destruct Hw as [Hu [Ht [Hurl Hc]]].
  unfold user_loop.
  induction uids as [|u uids IH]; intros us; [reflexivity|].
  cbn [for_each map fold_left bind setitem].
  rewrite (groupby_one "title" (mkDataFrame _ _)) by exact Ht.
  cbn [bind columns rows].
  fold (title_pos (columns df)).
  fold (user_state (str u) []).
  pose proof (prompt_loop_value (columns df) (str u) Hurl Hc
                (map (fun t => (t, group_rows (title_pos (columns df)) t (user_rows df u)))
                     (group_keys (title_pos (columns df)) (user_rows df u)))) as Hp.
  rewrite map_map in Hp; cbn [fst snd] in Hp.
  rewrite Hp; clear Hp.
  - cbn [bind].
    rewrite (fold_dict_set_map (fun g : cell * list row => py (fst g))
               (fun g => prompt_dict (columns df) (fst g) (snd g))).
    rewrite map_map; cbn [fst snd].
    fold (dict_of (map (fun t => (py t, prompt_dict (columns df) t
                                          (group_rows (title_pos (columns df)) t (user_rows df u))))
                       (group_keys (title_pos (columns df)) (user_rows df u)))).
    rewrite (py_keys_distinct _ (fun t => prompt_dict (columns df) t
                                   (group_rows (title_pos (columns df)) t (user_rows df u))))
      by (first [apply group_keys_ascending | apply group_keys_notna]).
    apply IH.
  - apply Forall_forall; intros g Hg; apply in_map_iff in Hg.
    destruct Hg as [t [<- Hin]]; simpl; split.
    + apply group_keys_In in Hin; tauto.
    + apply group_rows_nonempty; exact Hin.
Qed.

(** The result of [transform_to_hierarchy] on a frame whose labels can
    be read: no exception, and the dictionary [hierarchy_of df]. *)
Lemma transform_to_hierarchy_value (df : DataFrame) :
  well_labelled (columns df) = true ->
  transform_to_hierarchy df = Ok (hierarchy_of df).
Proof.
  intros Hw; unfold transform_to_hierarchy.
  pose proof (well_labelled_inv _ Hw) as [Hu _].
  rewrite (groupby_one _ _ Hu); cbn [bind].
  fold (user_pos (columns df)).
  rewrite (user_loop_value df _ Hw).
  unfold hierarchy_of, dict_of, user_entries, users_of.
  rewrite <- (fold_dict_set_map (fun u => PStr (str u)) (user_dict df)).
  reflexivity.
Qed.

(** ** The flattening loop *)

Lemma py_get_field (o : pyval) (k : string) (default : pyval) :
  is_dict o = true -> py_get o k default = Ok (field o k default).
Proof. destruct o; simpl; intros H; try discriminate; reflexivity. Qed.

Lemma py_items_entries (o : pyval) :
  is_dict o = true -> py_items o = Ok (entries o).
Proof. destruct o; simpl; intros H; try discriminate; reflexivity. Qed.

Lemma py_iter_elements (o : pyval) :
  is_list o = true -> py_iter o = Ok (elements o).
Proof. destruct o; simpl; intros H; try discriminate; reflexivity. Qed.

Section Flatten.

Variable reviewed_only : pyval.

Lemma flatten_images_value (user_id title prompt_info : pyval) (imgs : list pyval) :
  forallb is_dict imgs = true ->
  forall flat_data,
    flatten_images reviewed_only user_id title
                   (field prompt_info "content" (PStr "")) imgs flat_data
    = Ok (flat_data ++ map (record_of user_id title prompt_info)
                           (filter (kept reviewed_only) imgs)).
Proof.
  unfold flatten_images.
  induction imgs as [|img imgs IH]; simpl; intros Hd flat_data.
  - rewrite app_nil_r; reflexivity.
  - apply andb_prop in Hd; destruct Hd as [Hi Hd].
    rewrite !(py_get_field img) by exact Hi; cbn [bind].
    unfold kept at 1.
    destruct (truthy reviewed_only
              && (negb (truthy (field img "is_defective" (PBool false)))
                  && negb (truthy (field img "review_comment" (PStr ""))))); simpl.
    + apply IH; exact Hd.
    + rewrite IH by exact Hd; rewrite <- app_assoc; reflexivity.
Qed.

Lemma flatten_prompts_value (user_id : pyval) (prompts : dict) :
  forallb (fun kv => walkable_prompt (snd kv)) prompts = true ->
  forall flat_data,
    flatten_prompts reviewed_only user_id prompts flat_data
    = Ok (flat_data ++
          flat_map (fun p =>
            map (record_of user_id (fst p) (snd p))
                (filter (kept reviewed_only) (elements (field (snd p) "images" (PList [])))))
            prompts).
Proof.
  unfold flatten_prompts.
  induction prompts as [|[title prompt_info] prompts IH]; simpl; intros Hw flat_data.
  - rewrite app_nil_r; reflexivity.
  - apply andb_prop in Hw; destruct Hw as [Hp Hw].
    unfold walkable_prompt in Hp.
    apply andb_prop in Hp; destruct Hp as [Hp Hi].
    apply andb_prop in Hp; destruct Hp as [Hp Hl].
    rewrite !(py_get_field prompt_info) by exact Hp; cbn [bind].
    rewrite py_iter_elements by exact Hl; cbn [bind].
    rewrite flatten_images_value by exact Hi; cbn [bind].
    rewrite IH by exact Hw; rewrite <- app_assoc; reflexivity.
Qed.

Lemma flatten_users_value (users : dict) :
  forallb (fun kv => walkable_user (snd kv)) users = true ->
  forall flat_data,
    flatten_users reviewed_only users flat_data
    = Ok (flat_data ++
          flat_map (fun u =>
            flat_map (fun p =>
              map (record_of (fst u) (fst p) (snd p))
                  (filter (kept reviewed_only)
                          (elements (field (snd p) "images" (PList [])))))
              (entries (field (snd u) "prompts" (PDict []))))
            users).
Proof.
  unfold flatten_users.
  induction users as [|[user_id user_info] users IH]; simpl; intros Hw flat_data.
  - rewrite app_nil_r; reflexivity.
  - apply andb_prop in Hw; destruct Hw as [Hu Hw].
    unfold walkable_user in Hu.
    apply andb_prop in Hu; destruct Hu as [Hu Hps].
    apply andb_prop in Hu; destruct Hu as [Hu Hpd].
    rewrite py_get_field by exact Hu; cbn [bind].
    rewrite py_items_entries by exact Hpd; cbn [bind].
    rewrite flatten_prompts_value by exact Hps; cbn [bind].
    rewrite IH by exact Hw; rewrite <- app_assoc; reflexivity.
Qed.

(** On a hierarchy of the expected shape the loop raises nothing and
    leaves in [flat_data] the records of the images that pass the
    test, in the order of the walk. *)
Lemma flatten_value (users_data : pyval) :
  walkable users_data = true ->
  flatten users_data reviewed_only = Ok (selected reviewed_only users_data).
Proof.
  unfold walkable, flatten, selected; intros Hw.
  apply andb_prop in Hw; destruct Hw as [Hd Hw].
  rewrite py_items_entries by exact Hd; cbn [bind].
  rewrite flatten_users_value by exact Hw; reflexivity.
Qed.

End Flatten.

Lemma filter_all {A : Type} (f : A -> bool) (l : list A) :
  (forall x, In x l -> f x = true) -> filter f l = l.
Proof.
  induction l as [|x l IH]; simpl; intros H; [reflexivity|].
  rewrite (H x (or_introl eq_refl)), IH; [reflexivity|].
  intros y Hy; apply H; right; exact Hy.
Qed.

Lemma filter_none {A : Type} (f : A -> bool) (l : list A) :
  (forall x, In x l -> f x = false) -> filter f l = [].
Proof.
  induction l as [|x l IH]; simpl; intros H; [reflexivity|].
  rewrite (H x (or_introl eq_refl)); apply IH.
  intros y Hy; apply H; right; exact Hy.
Qed.

Lemma filter_flat_map {A B : Type} (f : B -> bool) (g : A -> list B) (l : list A) :
  filter f (flat_map g l) = flat_map (fun x => filter f (g x)) l.
Proof.
  induction l as [|x l IH]; simpl; [reflexivity|].
  rewrite filter_app, IH; reflexivity.
Qed.

Lemma filter_map_comm {A B : Type} (f : B -> bool) (g : A -> B) (l : list A) :
  filter f (map g l) = map g (filter (fun x => f (g x)) l).
Proof.
  induction l as [|x l IH]; simpl; [reflexivity|].
  destruct (f (g x)); simpl; rewrite IH; reflexivity.
Qed.

Lemma flat_map_ext_In {A B : Type} (f g : A -> list B) (l : list A) :
  (forall x, In x l -> f x = g x) -> flat_map f l = flat_map g l.
Proof.
  induction l as [|x l IH]; simpl; intros H; [reflexivity|].
  rewrite (H x (or_introl eq_refl)), IH; [reflexivity|].
  intros y Hy; apply H; right; exact Hy.
Qed.

Lemma filter_ext_on {A : Type} (f g : A -> bool) (l : list A) :
  (forall x, In x l -> f x = g x) -> filter f l = filter g l.
Proof.
  induction l as [|x l IH]; simpl; intros H; [reflexivity|].
  rewrite (H x (or_introl eq_refl)), IH; [reflexivity|].
  intros y Hy; apply H; right; exact Hy.
Qed.

Lemma selected_all (users_data : pyval) :
  selected (PBool false) users_data = records_of users_data.
Proof.
  unfold selected, records_of, user_records, prompt_records.
  apply flat_map_ext_In; intros u _.
  apply flat_map_ext_In; intros p _.
  rewrite filter_all; [reflexivity|].
  intros img _; reflexivity.
Qed.



(* ================================================================= *)
(** * Ingestion *)

(** ** Suffixes and trimming *)

Lemma lstrip_split (s : string) :
  exists l, s = (l ++ PyStr.lstrip s)%string /\ all_space l = true
            /\ starts_clean (PyStr.lstrip s) = true.
Proof.
  induction s as [|c s IH]; simpl.
  - exists EmptyString; auto.
  - destruct (PyStr.isspace c) eqn:E.
    + destruct IH as [l [Hs [Hl Hc]]].
      exists (String c l); simpl; rewrite E, Hl, <- Hs; auto.
    + exists EmptyString; simpl; rewrite E; auto.
Qed.

Lemma rstrip_split (s : string) :
  exists r, s = (PyStr.rstrip s ++ r)%string /\ all_space r = true
            /\ ends_clean (PyStr.rstrip s) = true.
Proof.
  induction s as [|c s IH]; simpl.
  - exists EmptyString; auto.
  - destruct IH as [r [Hs [Hr Hc]]].
    destruct (PyStr.rstrip s) as [|c' s'] eqn:E.
    + simpl in Hs; subst r.
      destruct (PyStr.isspace c) eqn:Ec.
      * exists (String c s); simpl; rewrite Ec, Hr; auto.
      * exists s; simpl; rewrite Ec; auto.
    + exists r; simpl in *; rewrite <- Hs; auto.
Qed.

Lemma rstrip_starts_clean (s : string) :
  starts_clean s = true -> starts_clean (PyStr.rstrip s) = true.
Proof.
  destruct s as [|c s]; simpl; [auto|].
  intros H; destruct (PyStr.rstrip s); simpl; [|exact H].
  apply negb_true_iff in H; rewrite H; simpl; rewrite H; reflexivity.
Qed.

(** [strip] removes white space, and only white space, from both ends. *)
Lemma strip_trims (s : string) :
  exists l r, s = (l ++ PyStr.strip s ++ r)%string
              /\ all_space l = true /\ all_space r = true
              /\ starts_clean (PyStr.strip s) = true
              /\ ends_clean (PyStr.strip s) = true.
Proof.
  unfold PyStr.strip.
  destruct (lstrip_split s) as [l [Hs [Hl Hc]]].
  destruct (rstrip_split (PyStr.lstrip s)) as [r [Hs' [Hr Hc']]].
  exists l, r; repeat split; auto.
  - rewrite <- Hs'; exact Hs.
  - apply rstrip_starts_clean; exact Hc.
Qed.

(** ** Reconciliation of the labels *)

Lemma rename_In (c m : string) (cols : list string) :
  In c cols -> In m (rename c m cols).
Proof.
  intros H; unfold rename; apply in_map_iff; exists c; split; [|exact H].
  rewrite String.eqb_refl; reflexivity.
Qed.

Lemma rename_other (c m x : string) (cols : list string) :
  x <> c -> In x cols -> In x (rename c m cols).
Proof.
  intros Hx H; unfold rename; apply in_map_iff; exists x; split; [|exact H].
  apply String.eqb_neq in Hx; rewrite Hx; reflexivity.
Qed.

Lemma guess_column_places (cols : list string) (m : string) :
  (exists c, In c cols /\ PyStr.lower c = PyStr.lower m) -> In m (guess_column cols m).
Proof.
  intros [c [Hc Hl]]; unfold guess_column.
  destruct (find _ cols) as [c0|] eqn:E.
  - apply find_some in E; apply rename_In; tauto.
  - exfalso.
    apply (find_none _ _ E) in Hc.
    rewrite Hl, String.eqb_refl in Hc; discriminate.
Qed.

Lemma guess_column_keeps (cols : list string) (m x : string) :
  PyStr.lower x <> PyStr.lower m -> In x cols -> In x (guess_column cols m).
Proof.
  intros Hl Hx; unfold guess_column.
  destruct (find _ cols) as [c0|] eqn:E; [|exact Hx].
  apply find_some in E; destruct E as [_ E]; apply String.eqb_eq in E.
  apply rename_other; [congruence | exact Hx].
Qed.

Lemma guess_column_reconciled (cols : list string) (m : string) :
  In m required -> Forall2 reconciled cols (guess_column cols m).
Proof.
  intros Hm; unfold guess_column.
  destruct (find _ cols) as [c0|] eqn:E.
  - apply find_some in E; destruct E as [_ E]; apply String.eqb_eq in E.
    unfold rename; clear -Hm E.
    induction cols as [|x cols IH]; simpl; constructor; [|exact IH].
    destruct (String.eqb_spec x c0); [right; subst; auto | left; reflexivity].
  - clear; induction cols; constructor; [left; reflexivity | assumption].
Qed.

Lemma reconciled_trans (a b c : string) :
  reconciled a b -> reconciled b c -> reconciled a c.
Proof.
  unfold reconciled; intros [->|[Hb Hab]] [->|[Hc Hbc]]; auto.
  right; split; [exact Hc | congruence].
Qed.

Lemma Forall2_reconciled_trans (l1 l2 l3 : list string) :
  Forall2 reconciled l1 l2 -> Forall2 reconciled l2 l3 -> Forall2 reconciled l1 l3.
Proof.
  intros H; revert l3; induction H; intros l3 H3; inversion H3; subst; constructor.
  - eapply reconciled_trans; eauto.
  - auto.
Qed.

Lemma fold_guess_reconciled (ms cols : list string) :
  (forall m, In m ms -> In m required) ->
  Forall2 reconciled cols (fold_left guess_column ms cols).
Proof.
  revert cols; induction ms as [|m ms IH]; cbn [fold_left]; intros cols Hms.
  - induction cols; constructor; [left; reflexivity | assumption].
  - apply (Forall2_reconciled_trans _ (guess_column cols m)).
    + apply guess_column_reconciled, Hms; left; reflexivity.
    + apply IH; intros m' Hm'; apply Hms; right; exact Hm'.
Qed.

(** Two recognized names that agree up to case are the same name. *)
Lemma required_lower_inj (a b : string) :
  In a required -> In b required -> PyStr.lower a = PyStr.lower b -> a = b.
Proof.
  unfold required; simpl.
  intros Ha Hb;
    repeat (destruct Ha as [<-|Ha]); try contradiction;
    repeat (destruct Hb as [<-|Hb]); try contradiction;
    intros H; try reflexivity; vm_compute in H; discriminate.
Qed.

Lemma fold_guess_places (ms cols : list string) (m : string) :
  (forall x, In x ms -> In x required) -> In m required ->
  In m ms ->
  (exists c, In c cols /\ PyStr.lower c = PyStr.lower m) ->
  In m (fold_left guess_column ms cols).
Proof.
  intros Hms Hm.
  assert (Keep : forall ms cols, (forall x, In x ms -> In x required) ->
            In m cols -> In m (fold_left guess_column ms cols)).
  { clear -Hm; intros ms; induction ms as [|m' ms IH]; cbn [fold_left]; intros cols Hms H;
      [exact H|].
    apply IH; [intros x Hx; apply Hms; right; exact Hx|].
    unfold guess_column; destruct (find _ cols) as [c0|] eqn:E; [|exact H].
    apply find_some in E; destruct E as [Hc0 E]; apply String.eqb_eq in E.
    destruct (String.eqb_spec m c0) as [Heq|Hne].
    - subst c0.
      assert (m = m')
        by (apply required_lower_inj; auto; apply Hms; left; reflexivity).
      subst m'; apply rename_In; exact Hc0.
    - apply rename_other; assumption. }
  revert cols; induction ms as [|m' ms IH]; cbn [fold_left]; intros cols Hin Hex;
    [contradiction|].
  assert (Hms' : forall x, In x ms -> In x required)
    by (intros x Hx; apply Hms; right; exact Hx).
  destruct (String.eqb_spec (PyStr.lower m') (PyStr.lower m)) as [El|Nl].
  - assert (m' = m)
      by (apply required_lower_inj; auto; apply Hms; left; reflexivity); subst m'.
    apply Keep; [exact Hms'|]. apply guess_column_places; exact Hex.
  - destruct Hin as [->|Hin]; [congruence|].
    apply IH; auto.
    destruct Hex as [c [Hc Hl]]; exists c; split; [|exact Hl].
    apply guess_column_keeps; [congruence | exact Hc].
Qed.

Lemma reconcile_columns_places (cols : list string) (m : string) :
  In m required -> ~ In m cols ->
  (exists c, In c cols /\ PyStr.lower c = PyStr.lower m) ->
  In m (reconcile_columns cols).
Proof.
  intros Hm Hnot Hex; unfold reconcile_columns.
  apply fold_guess_places; auto.
  - intros x Hx; apply filter_In in Hx; tauto.
  - apply filter_In; split; [exact Hm|].
    apply negb_true_iff; destruct (has_column m cols) eqn:E; [|reflexivity].
    apply has_column_In in E; contradiction.
Qed.

Lemma reconcile_columns_reconciled (cols : list string) :
  Forall2 reconciled cols (reconcile_columns cols).
Proof.
  unfold reconcile_columns; apply fold_guess_reconciled.
  intros m Hm; apply filter_In in Hm; tauto.
Qed.

(** C6: normalization trims the white space at both ends of every
    column label ([parse_file], lines 18-19) and, for each of the four
    recognized names that no label equals, renames a label that equals
    it up to case to that name ([clean_data], lines 29-39), every other
    label staying as it is.  The header [" UserID "] of scenario C is
    [userId] in the frame that is grouped. *)
Theorem normalization_reconciles_labels
        (read_csv read_excel : list Byte.byte -> DataFrame + string)
        (file : FileStorage) (df : DataFrame) :
  parse_file read_csv read_excel file = Ok df ->
  (exists df0, (read_csv (stream file) = inl df0 \/ read_excel (stream file) = inl df0)
               /\ columns df = map PyStr.strip (columns df0)
               /\ rows df = rows df0)
  /\ Forall (fun c => starts_clean c = true /\ ends_clean c = true) (columns df)
  /\ (forall m, In m required -> ~ In m (columns df) ->
                (exists c, In c (columns df) /\ PyStr.lower c = PyStr.lower m) ->
                In m (columns (clean_data df)))
  /\ Forall2 reconciled (columns df) (columns (clean_data df))
  /\ columns (clean_data (strip_columns scenario_C)) = ["userId"; "url"; "title"; "content"].
Proof.
  intros Hp.
  assert (Hdf : exists df0, (read_csv (stream file) = inl df0 \/ read_excel (stream file) = inl df0)
                            /\ df = strip_columns df0).
  { unfold parse_file, run_reader in Hp.
    destruct (PyStr.endswith (filename file) ".csv").
    - destruct (read_csv (stream file)) as [df0|] eqn:E; simpl in Hp; [|discriminate].
      exists df0; split; [left; reflexivity | congruence].
    - destruct (PyStr.endswith (filename file) ".xls" || PyStr.endswith (filename file) ".xlsx");
        [|discriminate].
      destruct (read_excel (stream file)) as [df0|] eqn:E; simpl in Hp; [|discriminate].
      exists df0; split; [right; reflexivity | congruence]. }
  destruct Hdf as [df0 [Hr ->]].
  split; [exists df0; auto|].
  split.
  { simpl; apply Forall_forall; intros c Hc; apply in_map_iff in Hc.
    destruct Hc as [s [<- _]].
    destruct (strip_trims s) as [l [r H]]; tauto. }
  split; [intros m Hm Hn Hex; apply reconcile_columns_places; assumption|].
  split; [apply reconcile_columns_reconciled | reflexivity].
Qed.

Lemma normalization_reconciles_labels_witness :
  parse_file (sample_reader scenario_C) (sample_reader scenario_C) sample_csv
  = Ok (strip_columns scenario_C)
  /\ In "userId" (columns (clean_data (strip_columns scenario_C))).
Proof.
  split; [reflexivity|].
  destruct (normalization_reconciles_labels
              (sample_reader scenario_C) (sample_reader scenario_C) sample_csv
              (strip_columns scenario_C) eq_refl) as [_ [_ [H _]]].
  apply H.
  - left; reflexivity.
  - vm_compute; intuition discriminate.
  - exists "UserID"; split; [left; reflexivity | reflexivity].
Defined.

(** C8: [parse_file] raises the unsupported-format error exactly when
    the file name ends in none of [.csv], [.xls], [.xlsx]; otherwise the
    reader is chosen by the name alone, [read_csv] for [.csv] and
    [read_excel] for the other two, whatever the bytes of the file. *)
Theorem parse_file_unsupported_iff
        (read_csv read_excel : list Byte.byte -> DataFrame + string)
        (file : FileStorage) :
  (parse_file read_csv read_excel file = Raise UnsupportedFormat
   <-> unrecognized (filename file))
  /\ (PyStr.endswith (filename file) ".csv" = true ->
      parse_file read_csv read_excel file
      = (df <- run_reader read_csv file ;; Ok (strip_columns df)))
  /\ (PyStr.endswith (filename file) ".csv" = false ->
      PyStr.endswith (filename file) ".xls" = true
      \/ PyStr.endswith (filename file) ".xlsx" = true ->
      parse_file read_csv read_excel file
      = (df <- run_reader read_excel file ;; Ok (strip_columns df))).
Proof.
  unfold parse_file, unrecognized, run_reader.
  destruct (PyStr.endswith (filename file) ".csv") eqn:Ecsv;
    destruct (PyStr.endswith (filename file) ".xls") eqn:Exls;
    destruct (PyStr.endswith (filename file) ".xlsx") eqn:Exlsx; simpl;
    (split; [split|split]); try reflexivity; try tauto;
    try (intros [? [? ?]]; discriminate);
    try (intros; discriminate);
    try (intros _ [?|?]; discriminate).
  all: try (destruct (read_csv (stream file)); simpl; discriminate).
  all: try (destruct (read_excel (stream file)); simpl; discriminate).
Qed.

Lemma parse_file_unsupported_iff_witness :
  parse_file failing_reader failing_reader sample_txt = Raise UnsupportedFormat
  /\ parse_file (sample_reader scenario_A) failing_reader sample_csv
     = Ok (strip_columns scenario_A).
Proof.
  split.
  - apply (parse_file_unsupported_iff failing_reader failing_reader sample_txt).
    repeat split; reflexivity.
  - destruct (parse_file_unsupported_iff (sample_reader scenario_A) failing_reader sample_csv)
      as [_ [H _]].
    rewrite H; reflexivity.
Defined.

(* ================================================================= *)
(** * Flattening *)

Lemma dict_get_set_other (k k' : string) (v : pyval) (d : dict) :
  k <> k' ->
  dict_get (PStr k) (dict_set (PStr k') v d) = dict_get (PStr k) d.
Proof.
  intros Hne; apply String.eqb_neq in Hne.
  induction d as [|[k0 v0] d IH]; simpl.
  - rewrite Hne; reflexivity.
  - destruct k0; simpl; try (rewrite IH; reflexivity).
    destruct (String.eqb_spec k' s) as [->|Hs]; simpl.
    + rewrite Hne; reflexivity.
    + rewrite IH; reflexivity.
Qed.

Lemma field_set_other (img : pyval) (k k' : string) (v default : pyval) :
  k <> k' ->
  field (PDict (dict_set (PStr k') v (entries img))) k default = field img k default.
Proof.
  intros Hne; unfold field at 1.
  rewrite dict_get_set_other by exact Hne.
  destruct img; simpl; reflexivity.
Qed.

Lemma records_of_In (users_data user_id user_info title prompt_info img : pyval) :
  In (user_id, user_info) (entries users_data) ->
  In (title, prompt_info) (entries (field user_info "prompts" (PDict []))) ->
  In img (elements (field prompt_info "images" (PList []))) ->
  In (record_of user_id title prompt_info img) (records_of users_data).
Proof.
  intros Hu Hp Hi; unfold records_of.
  apply in_flat_map; exists (user_id, user_info); split; [exact Hu|].
  unfold user_records; apply in_flat_map; exists (title, prompt_info); split; [exact Hp|].
  unfold prompt_records; apply in_map; exact Hi.
Qed.

(** C4: on every hierarchy the flattening loop writes one record per
    image, and the record of an image carries the key of its user, the
    key of its prompt, the [content] of the prompt (the image's own
    [content] plays no part), the image's [url], and the annotations
    with their defaults [False] and ['']. *)
Theorem flatten_carries_group_content (users_data : pyval) :
  walkable users_data = true ->
  flatten users_data (PBool false) = Ok (records_of users_data)
  /\ (forall user_id user_info title prompt_info img,
        In (user_id, user_info) (entries users_data) ->
        In (title, prompt_info) (entries (field user_info "prompts" (PDict []))) ->
        In img (elements (field prompt_info "images" (PList []))) ->
        In (PDict [(PStr "userId", user_id);
                   (PStr "title", title);
                   (PStr "content", field prompt_info "content" (PStr ""));
                   (PStr "url", field img "url" (PStr ""));
                   (PStr "is_defective", field img "is_defective" (PBool false));
                   (PStr "review_comment", field img "review_comment" (PStr ""))])
           (records_of users_data))
  /\ (forall user_id title prompt_info img v,
        record_of user_id title prompt_info
                  (PDict (dict_set (PStr "content") v (entries img)))
        = record_of user_id title prompt_info img).
Proof.
  intros Hw; split; [|split].
  - rewrite flatten_value by exact Hw; rewrite selected_all; reflexivity.
  - intros; apply (records_of_In users_data user_id user_info title prompt_info img);
      assumption.
  - intros; unfold record_of.
    rewrite !field_set_other by discriminate; reflexivity.
Qed.

Lemma flatten_carries_group_content_witness :
  walkable scenario_B = true
  /\ flatten scenario_B (PBool false)
     = Ok [flat_row (PStr "u1") (PStr "T1") (PStr "desc") (PStr "http://a")
                    (PBool false) (PStr "");
           flat_row (PStr "u1") (PStr "T1") (PStr "desc") (PStr "http://b")
                    (PBool true) (PStr "")].
Proof.
  split; [reflexivity|].
  destruct (flatten_carries_group_content scenario_B eq_refl) as [H _].
  rewrite H; reflexivity.
Defined.



(* ================================================================= *)
(** * The hierarchy *)

(** ** Its entries *)

Lemma user_entries_plain (df : DataFrame) :
  Forall plain_key (map fst (user_entries df)).
Proof.
  unfold user_entries; rewrite map_map; simpl.
  apply Forall_forall; intros k Hk; apply in_map_iff in Hk.
  destruct Hk as [u [<- _]]; exact I.
Qed.

Lemma hierarchy_entry (df : DataFrame) (k user : pyval) :
  In (k, user) (entries (hierarchy_of df)) ->
  exists u, In u (users_of df) /\ k = PStr (str u) /\ user = user_dict df u.
Proof.
  unfold hierarchy_of; simpl; intros H.
  apply dict_of_In in H; [|apply user_entries_plain].
  unfold user_entries in H; apply in_map_iff in H.
  destruct H as [u [E Hu]]; exists u; split; [exact Hu|].
  split; congruence.
Qed.


Lemma prompts_in_user_dict (df : DataFrame) (u : cell) :
  prompts_in (user_dict df u)
  = map (fun t => (py t, prompt_dict (columns df) t (members df u t))) (titles_of df u).
Proof. reflexivity. Qed.

Lemma images_in_prompt_dict (cols : list string) (t : cell) (rs : list row) :
  images_in (prompt_dict cols t rs) = map (image_dict cols (group_content cols rs)) rs.
Proof. reflexivity. Qed.

Lemma users_of_In (df : DataFrame) (u : cell) :
  In u (users_of df)
  <-> notna u = true /\ exists r, In r (rows df) /\ cell_at (user_pos (columns df)) r = u.
Proof. apply group_keys_In. Qed.

Lemma titles_of_In (df : DataFrame) (u t : cell) :
  In t (titles_of df u)
  <-> notna t = true
      /\ exists r, In r (rows df) /\ cell_at (user_pos (columns df)) r = u
                   /\ cell_at (title_pos (columns df)) r = t.
Proof.
  unfold titles_of; rewrite group_keys_In.
  split; intros [Hn [r H]]; (split; [exact Hn|]); exists r.
  - destruct H as [H E]; apply group_rows_In in H; tauto.
  - split; [apply group_rows_In|]; tauto.
Qed.

Lemma members_In (df : DataFrame) (u t : cell) (r : row) :
  In r (members df u t)
  <-> In r (rows df) /\ cell_at (user_pos (columns df)) r = u
      /\ cell_at (title_pos (columns df)) r = t.
Proof.
  unfold members, user_rows; rewrite !group_rows_In; tauto.
Qed.

(** The hierarchy can be walked by the flattening loop. *)
Lemma hierarchy_walkable (df : DataFrame) : walkable (hierarchy_of df) = true.
Proof.
  unfold walkable; simpl; apply forallb_forall; intros [k user] H.
  apply (hierarchy_entry df) in H; destruct H as [u [_ [_ ->]]].
  unfold walkable_user; simpl.
  apply forallb_forall; intros [t prompt] H.
  apply in_map_iff in H; destruct H as [t0 [E _]]; injection E as <- <-.
  unfold walkable_prompt; simpl.
  apply forallb_forall; intros img H.
  apply in_map_iff in H; destruct H as [r [<- _]]; reflexivity.
Qed.

(** ** Field names *)

(** C9, as the code has it: the hierarchy that [transform_to_hierarchy]
    returns holds, for each user, exactly [userId] and [prompts]; for
    each prompt, under its title, exactly [title], [content] and
    [images]; and for each image exactly [url], [content] and
    [original_row_index].  No annotation field is present. *)
Theorem hierarchy_field_names (df : DataFrame) :
  well_labelled (columns df) = true ->
  exists h, transform_to_hierarchy df = Ok h
    /\ hierarchy_fields h ["userId"; "prompts"] ["title"; "content"; "images"]
                        ["url"; "content"; "original_row_index"]
    /\ forall k user t prompt, In (k, user) (entries h) -> In (t, prompt) (prompts_in user) ->
         field prompt "title" PNone = t.
Proof.
  intros Hw; exists (hierarchy_of df).
  split; [apply transform_to_hierarchy_value; exact Hw|].
  split.
  - intros k user Hu.
    apply hierarchy_entry in Hu; destruct Hu as [u [_ [_ ->]]].
    split; [reflexivity|].
    intros t prompt Hp; rewrite prompts_in_user_dict in Hp.
    apply in_map_iff in Hp; destruct Hp as [t0 [E _]]; injection E as <- <-.
    split; [reflexivity|].
    intros img Hi; rewrite images_in_prompt_dict in Hi.
    apply in_map_iff in Hi; destruct Hi as [r [<- _]]; reflexivity.
  - intros k user t prompt Hu Hp.
    apply hierarchy_entry in Hu; destruct Hu as [u [_ [_ ->]]].
    rewrite prompts_in_user_dict in Hp.
    apply in_map_iff in Hp; destruct Hp as [t0 [E _]]; injection E as <- <-.
    reflexivity.
Qed.

Lemma hierarchy_field_names_witness :
  well_labelled (columns scenario_A) = true
  /\ exists h, transform_to_hierarchy scenario_A = Ok h
       /\ hierarchy_fields h ["userId"; "prompts"] ["title"; "content"; "images"]
                           ["url"; "content"; "original_row_index"].
Proof.
  split; [reflexivity|].
  destruct (hierarchy_field_names scenario_A eq_refl) as [h [H1 [H2 _]]].
  exists h; split; assumption.
Defined.

(** C9 as stated fails on scenario A: the images of the hierarchy do
    not consist of exactly [url] and [content]. *)
Lemma image_fields_url_content_refuted :
  exists h, transform_to_hierarchy scenario_A = Ok h
    /\ ~ hierarchy_fields h ["userId"; "prompts"] ["title"; "content"; "images"]
                          ["url"; "content"].
Proof.
  eexists; split; [reflexivity|].
  intros H.
  destruct (H (PStr "u1") _ (or_introl eq_refl)) as [_ Hp].
  destruct (Hp (PStr "T1") _ (or_introl eq_refl)) as [_ Hi].
  specialize (Hi _ (or_introl eq_refl)).
  discriminate Hi.
Qed.

(** ** User keys *)



(** ** Lookups *)

Lemma distinct_strings_NoDup (l : list string) :
  distinct_strings l = true -> NoDup l.
Proof.
  induction l as [|s l IH]; simpl; intros H; constructor;
    apply andb_prop in H; destruct H as [Hs Hl]; [|apply IH; exact Hl].
  intros Hin; apply negb_true_iff in Hs.
  assert (existsb (String.eqb s) l = true)
    by (apply existsb_exists; exists s; split; [exact Hin | apply String.eqb_refl]).
  congruence.
Qed.

Lemma user_entries_NoDup (df : DataFrame) :
  distinct_renderings df = true -> NoDup (map fst (user_entries df)).
Proof.
  intros H; apply distinct_strings_NoDup in H.
  unfold user_entries; rewrite map_map; simpl.
  rewrite <- (map_map str PStr).
  apply Injective_map_NoDup; [intros a b E; congruence | exact H].
Qed.

(** Without two users rendered alike, no assignment to [users_data]
    overwrites another: the entries are those of the users, in order. *)
Lemma hierarchy_entries (df : DataFrame) :
  distinct_renderings df = true -> hierarchy_of df = PDict (user_entries df).
Proof.
  intros H; unfold hierarchy_of; f_equal.
  apply dict_of_distinct; [apply user_entries_plain | apply user_entries_NoDup; exact H].
Qed.

Lemma user_lookup (df : DataFrame) (u : cell) :
  distinct_renderings df = true -> In u (users_of df) ->
  dict_get (PStr (str u)) (entries (hierarchy_of df)) = Some (user_dict df u).
Proof.
  intros Hd Hu; rewrite (hierarchy_entries df Hd); simpl.
  apply dict_get_In.
  - apply user_entries_plain.
  - apply user_entries_NoDup; exact Hd.
  - exact I.
  - unfold user_entries; apply in_map_iff; exists u; auto.
Qed.

Lemma prompt_lookup (df : DataFrame) (u t : cell) :
  In t (titles_of df u) ->
  dict_get (py t) (prompts_in (user_dict df u))
  = Some (prompt_dict (columns df) t (members df u t)).
Proof.
  intros Ht; rewrite prompts_in_user_dict.
  pose proof (group_keys_ascending (title_pos (columns df)) (user_rows df u)) as [_ Hn].
  pose proof (group_keys_notna (title_pos (columns df)) (user_rows df u)) as Hna.
  fold (titles_of df u) in Hn, Hna.
  apply dict_get_In.
  - rewrite map_map; simpl; apply Forall_forall; intros k Hk.
    apply in_map_iff in Hk; destruct Hk as [t0 [<- Ht0]].
    apply plain_py; rewrite Forall_forall in Hna; auto.
  - rewrite map_map; simpl.
    apply Injective_map_NoDup; [intros a b; apply py_inj | exact Hn].
  - apply plain_py; rewrite Forall_forall in Hna; auto.
  - apply in_map_iff; exists t; auto.
Qed.

Lemma images_at_hierarchy (df : DataFrame) (u t : cell) :
  distinct_renderings df = true -> In u (users_of df) -> In t (titles_of df u) ->
  images_at (hierarchy_of df) (PStr (str u)) (py t)
  = Some (map (image_dict (columns df) (group_content (columns df) (members df u t)))
              (members df u t)).
Proof.
  intros Hd Hu Ht; unfold images_at.
  rewrite (user_lookup df u Hd Hu).
  change (dict_get (PStr "prompts") (entries (user_dict df u)))
    with (Some (PDict (prompts_in (user_dict df u)))).
  cbn [entries].
  rewrite (prompt_lookup df u t Ht); reflexivity.
Qed.

Lemma prompt_titles_hierarchy (df : DataFrame) (u : cell) :
  distinct_renderings df = true -> In u (users_of df) ->
  prompt_titles (hierarchy_of df) (PStr (str u)) = Some (map py (titles_of df u)).
Proof.
  intros Hd Hu; unfold prompt_titles.
  rewrite (user_lookup df u Hd Hu).
  change (dict_get (PStr "prompts") (entries (user_dict df u)))
    with (Some (PDict (prompts_in (user_dict df u)))).
  rewrite prompts_in_user_dict; unfold keys; simpl.
  rewrite map_map; reflexivity.
Qed.

Lemma members_filter (df : DataFrame) (u t : cell) :
  members df u t
  = filter (fun r => cell_eqb (cell_at (user_pos (columns df)) r) u
                     && cell_eqb (cell_at (title_pos (columns df)) r) t)
           (rows df).
Proof.
  unfold members, user_rows, group_rows.
  induction (rows df) as [|r rs IH]; simpl; [reflexivity|].
  destruct (cell_eqb (cell_at (user_pos (columns df)) r) u); simpl; [|exact IH].
  destruct (cell_eqb (cell_at (title_pos (columns df)) r) t); rewrite IH; reflexivity.
Qed.

(** ** Grouping *)

(** C1, as the code has it: two rows are in the same group exactly
    when they share user and title, and the rows of a group keep the
    order of the frame; but users and the titles of a user are met in
    ascending order of their keys, as [groupby] sorts them, not in the
    order in which the frame first shows them. *)
Theorem groups_sorted_rows_stable (df : DataFrame) :
  well_labelled (columns df) = true ->
  distinct_renderings df = true ->
  exists h, transform_to_hierarchy df = Ok h
    /\ keys h = map (fun u => PStr (str u)) (users_of df)
    /\ ascending (users_of df)
    /\ (forall u, In u (users_of df) ->
          prompt_titles h (PStr (str u)) = Some (map py (titles_of df u))
          /\ ascending (titles_of df u)
          /\ forall t, In t (titles_of df u) ->
               images_at h (PStr (str u)) (py t)
               = Some (map (image_dict (columns df)
                                       (group_content (columns df) (members df u t)))
                           (members df u t)))
    /\ (forall u t r,
          In r (members df u t)
          <-> In r (rows df) /\ cell_at (user_pos (columns df)) r = u
              /\ cell_at (title_pos (columns df)) r = t)
    /\ (forall u t,
          members df u t
          = filter (fun r => cell_eqb (cell_at (user_pos (columns df)) r) u
                             && cell_eqb (cell_at (title_pos (columns df)) r) t)
                   (rows df))
    /\ (forall u t,
          In u (users_of df) /\ In t (titles_of df u)
          <-> notna u = true /\ notna t = true
              /\ exists r, In r (rows df) /\ cell_at (user_pos (columns df)) r = u
                           /\ cell_at (title_pos (columns df)) r = t).
Proof.
  intros Hw Hd; exists (hierarchy_of df).
  split; [apply transform_to_hierarchy_value; exact Hw|].
  split.
  { rewrite (hierarchy_entries df Hd); unfold keys, user_entries; simpl.
    rewrite map_map; reflexivity. }
  split; [apply group_keys_ascending|].
  split.
  { intros u Hu; split; [apply prompt_titles_hierarchy; assumption|].
    split; [apply group_keys_ascending|].
    intros t Ht; apply images_at_hierarchy; assumption. }
  split; [intros; apply members_In|].
  split; [intros; apply members_filter|].
  intros u t; rewrite users_of_In, titles_of_In; split.
  - intros [[Hu _] [Ht Hr]]; auto.
  - intros [Hu [Ht [r [Hr [E1 E2]]]]]; split; split; auto; exists r; auto.
Qed.

Lemma groups_sorted_rows_stable_witness :
  (well_labelled (columns unsorted_titles) = true
   /\ distinct_renderings unsorted_titles = true)
  /\ prompt_titles (hierarchy_of unsorted_titles) (PStr "u1")
     = Some [PStr "T1"; PStr "T2"].
Proof.
  split; [split; reflexivity|].
  destruct (groups_sorted_rows_stable unsorted_titles eq_refl eq_refl)
    as [h [H1 [_ [_ [H4 _]]]]].
  assert (E : h = hierarchy_of unsorted_titles)
    by (rewrite (transform_to_hierarchy_value unsorted_titles eq_refl) in H1; congruence).
  subst h.
  destruct (H4 (CStr "u1")) as [H _]; [left; reflexivity | exact H].
Defined.

(** C1 as stated fails: the rows of [unsorted_titles] show T2 before
    T1, and the hierarchy holds T1 before T2. *)
Lemma first_seen_order_refuted :
  exists h, transform_to_hierarchy unsorted_titles = Ok h
    /\ ~ titles_first_seen unsorted_titles h.
Proof.
  eexists; split; [reflexivity|].
  intros H; specialize (H (CStr "u1") (or_introl eq_refl)).
  vm_compute in H; discriminate H.
Qed.

(** ** Content of the images *)

(** C3, as the code has it: the image built for a row carries the
    content cell of that very row, also when it is the empty string,
    and the prompt carries the content cell of the first row of the
    group; there is no fall-back from an empty cell.  (In a frame with
    no content column both read [''].) *)
Theorem items_keep_own_content (df : DataFrame) :
  well_labelled (columns df) = true ->
  exists h, transform_to_hierarchy df = Ok h
    /\ forall k user t prompt,
         In (k, user) (entries h) -> In (t, prompt) (prompts_in user) ->
         exists u t0 first rest,
           k = PStr (str u) /\ t = py t0
           /\ members df u t0 = first :: rest
           /\ field prompt "content" PNone = own_content (columns df) first
           /\ map (fun img => field img "content" PNone) (images_in prompt)
              = map (own_content (columns df)) (first :: rest).
Proof.
  intros Hw; exists (hierarchy_of df).
  split; [apply transform_to_hierarchy_value; exact Hw|].
  intros k user t prompt Hu Hp.
  apply hierarchy_entry in Hu; destruct Hu as [u [Hu [-> ->]]].
  rewrite prompts_in_user_dict in Hp.
  apply in_map_iff in Hp; destruct Hp as [t0 [E Ht0]]; injection E as <- <-.
  pose proof (group_rows_nonempty _ _ _ Ht0) as Hne.
  fold (members df u t0) in Hne.
  destruct (members df u t0) as [|first rest] eqn:Em; [contradiction|].
  exists u, t0, first, rest.
  split; [reflexivity|]; split; [reflexivity|]; split; [exact Em|].
  rewrite images_in_prompt_dict.
  split.
  - change (field (prompt_dict (columns df) t0 (first :: rest)) "content" PNone)
      with (group_content (columns df) (first :: rest)).
    unfold own_content, group_content.
    destruct (has_column "content" (columns df)); reflexivity.
  - rewrite map_map; apply map_ext; intros r.
    change (field (image_dict (columns df) (group_content (columns df) (first :: rest)) r)
                  "content" PNone)
      with (item_content (columns df) (group_content (columns df) (first :: rest)) r).
    unfold own_content, item_content, group_content.
    destruct (has_column "content" (columns df)); reflexivity.
Qed.

Lemma items_keep_own_content_witness :
  well_labelled (columns scenario_A) = true
  /\ exists h, transform_to_hierarchy scenario_A = Ok h
       /\ forall k user t prompt,
            In (k, user) (entries h) -> In (t, prompt) (prompts_in user) ->
            exists u t0 first rest,
              k = PStr (str u) /\ t = py t0
              /\ members scenario_A u t0 = first :: rest
              /\ field prompt "content" PNone = own_content (columns scenario_A) first
              /\ map (fun img => field img "content" PNone) (images_in prompt)
                 = map (own_content (columns scenario_A)) (first :: rest).
Proof.
  split; [reflexivity | apply (items_keep_own_content scenario_A); reflexivity].
Defined.

(** C3 as stated fails on scenario A: the second row of group
    (u1, T1) has content [""], the first has ["desc"], and the image of
    the second row carries [""]. *)
Lemma content_fallback_refuted :
  exists h, transform_to_hierarchy scenario_A = Ok h
    /\ ~ content_falls_back scenario_A h.
Proof.
  eexists; split; [reflexivity|].
  intros H.
  specialize (H (CStr "u1") (CStr "T1") _ _ 1 _ _ _ eq_refl eq_refl eq_refl eq_refl eq_refl).
  discriminate H.
Qed.

(** ** Filled frames *)

Lemma first_pos_lt (label : string) (cols : list string) :
  count_label label cols = 1 -> first_pos label cols < List.length cols.
Proof.
  intros H; apply count_one_has, has_column_In in H.
  induction cols as [|c cols IH]; simpl; [contradiction|].
  destruct (String.eqb_spec label c); [lia|].
  destruct H as [H|H]; [congruence|].
  apply IH in H; lia.
Qed.

Lemma pad_length (n : nat) (cs : list cell) : List.length (pad n cs) = n.
Proof.
  revert cs; induction n as [|n IH]; intros cs; simpl; [reflexivity|].
  destruct cs; simpl; rewrite IH; reflexivity.
Qed.

Lemma pad_nth (n p : nat) (cs : list cell) :
  p < n -> nth p (pad n cs) NaN = nth p cs NaN.
Proof.
  revert p cs; induction n as [|n IH]; intros p cs Hp; [lia|].
  destruct cs as [|c cs]; destruct p as [|p]; simpl; try reflexivity.
  - rewrite IH by lia; destruct p; reflexivity.
  - apply IH; lia.
Qed.

Lemma cell_at_fill_row (n p : nat) (r : row) :
  p < n -> cell_at p (fill_row n r) = fill_cell (cell_at p r).
Proof.
  intros Hp; unfold cell_at, fill_row; simpl.
  rewrite (nth_indep _ NaN (fill_cell NaN)) by (rewrite length_map, pad_length; exact Hp).
  rewrite map_nth, pad_nth by exact Hp; reflexivity.
Qed.

Lemma fill_cell_notna (c : cell) : notna (fill_cell c) = true.
Proof. destruct c; reflexivity. Qed.

Lemma clean_data_rows (raw : DataFrame) :
  rows (clean_data raw)
  = map (fill_row (List.length (columns (clean_data raw)))) (rows raw).
Proof. reflexivity. Qed.

(** After [clean_data] no cell under a label is missing. *)
Lemma clean_data_notna (raw : DataFrame) (label : string) (r : row) :
  count_label label (columns (clean_data raw)) = 1 ->
  In r (rows (clean_data raw)) ->
  notna (cell_at (first_pos label (columns (clean_data raw))) r) = true.
Proof.
  intros Hl Hr; rewrite clean_data_rows in Hr.
  apply in_map_iff in Hr; destruct Hr as [r0 [<- _]].
  rewrite cell_at_fill_row by (apply first_pos_lt; exact Hl).
  apply fill_cell_notna.
Qed.

(** ** Every row has its place *)

Lemma row_placed (df : DataFrame) (r : row) :
  distinct_renderings df = true ->
  In r (rows df) ->
  notna (cell_at (user_pos (columns df)) r) = true ->
  notna (cell_at (title_pos (columns df)) r) = true ->
  placed df (hierarchy_of df) r.
Proof.
  intros Hd Hr Hu Ht.
  exists (map (image_dict (columns df)
                 (group_content (columns df)
                    (members df (cell_at (user_pos (columns df)) r)
                                (cell_at (title_pos (columns df)) r))))
              (members df (cell_at (user_pos (columns df)) r)
                          (cell_at (title_pos (columns df)) r))).
  eexists; split.
  - apply images_at_hierarchy; [exact Hd | |].
    + apply users_of_In; split; [exact Hu | exists r; auto].
    + apply titles_of_In; split; [exact Ht | exists r; auto].
  - apply in_map, members_In; auto.
Qed.

(** C7, as the code has it: on a normalized frame in which [userId],
    [title] and [url] each name one column ([content] at most one) and
    no two users are rendered alike by [str],
    [transform_to_hierarchy] raises nothing and every row has its
    image in the hierarchy, under its user and its title; a row whose
    user or title cell was missing has been filled with the empty
    string and sits under the key [""]. *)
Theorem every_row_is_placed (raw : DataFrame) :
  well_labelled (columns (clean_data raw)) = true ->
  distinct_renderings (clean_data raw) = true ->
  exists h, transform_to_hierarchy (clean_data raw) = Ok h
    /\ (forall r, In r (rows (clean_data raw)) -> placed (clean_data raw) h r)
    /\ (forall r0, In r0 (rows raw) ->
          exists r, In r (rows (clean_data raw))
            /\ fst r = fst r0
            /\ (cell_at (user_pos (columns (clean_data raw))) r0 = NaN ->
                user_key (clean_data raw) r = PStr "")
            /\ (cell_at (title_pos (columns (clean_data raw))) r0 = NaN ->
                title_key (clean_data raw) r = PStr "")
            /\ (notna (cell_at (user_pos (columns (clean_data raw))) r0) = true ->
                user_key (clean_data raw) r = user_key (clean_data raw) r0)
            /\ (notna (cell_at (title_pos (columns (clean_data raw))) r0) = true ->
                title_key (clean_data raw) r = title_key (clean_data raw) r0)).
Proof.
  intros Hw Hd; exists (hierarchy_of (clean_data raw)).
  pose proof (well_labelled_inv _ Hw) as [Hu [Ht _]].
  split; [apply transform_to_hierarchy_value; exact Hw|].
  split.
  - intros r Hr; apply row_placed; auto.
    + apply (clean_data_notna raw "userId"); assumption.
    + apply (clean_data_notna raw "title"); assumption.
  - intros r0 Hr0.
    exists (fill_row (List.length (columns (clean_data raw))) r0).
    split; [rewrite clean_data_rows; apply in_map; exact Hr0|].
    split; [reflexivity|].
    unfold user_key, title_key, user_pos, title_pos.
    rewrite !cell_at_fill_row by (apply first_pos_lt; assumption).
    repeat split.
    + intros ->; reflexivity.
    + intros ->; reflexivity.
    + destruct (cell_at _ r0); [discriminate | reflexivity | reflexivity].
    + destruct (cell_at _ r0); [discriminate | reflexivity | reflexivity].
Qed.

Lemma every_row_is_placed_witness :
  (well_labelled (columns (clean_data missing_keys)) = true
   /\ distinct_renderings (clean_data missing_keys) = true)
  /\ exists h, transform_to_hierarchy (clean_data missing_keys) = Ok h
       /\ forall r, In r (rows (clean_data missing_keys)) ->
                    placed (clean_data missing_keys) h r.
Proof.
  split; [split; reflexivity|].
  destruct (every_row_is_placed missing_keys eq_refl eq_refl) as [h [H1 [H2 _]]].
  exists h; split; assumption.
Defined.

(** C7 as stated fails on normalized frames that hold the four
    recognized labels.  Where two labels trim to [userId], [groupby]
    refuses the label and the builder raises.  Where the user cells 7
    and ["7"] are rendered alike, the builder returns a hierarchy in
    which the row of user 7 has no image. *)
Lemma every_row_placed_refuted :
  ((forall m, In m required -> In m (columns (normalized repeated_user_label)))
   /\ transform_to_hierarchy (normalized repeated_user_label)
      = Raise (NotOneDimensional "userId"))
  /\ ((forall m, In m required -> In m (columns (clean_data colliding_users)))
      /\ exists h r,
           transform_to_hierarchy (clean_data colliding_users) = Ok h
           /\ In r (rows (clean_data colliding_users))
           /\ ~ placed (clean_data colliding_users) h r).
Proof.
  split; split.
  - intros m Hm; apply has_column_In; unfold required in Hm; simpl in Hm.
    repeat (destruct Hm as [<-|Hm]; [reflexivity|]); contradiction.
  - reflexivity.
  - intros m Hm; apply has_column_In; unfold required in Hm; simpl in Hm.
    repeat (destruct Hm as [<-|Hm]; [reflexivity|]); contradiction.
  - eexists; exists (0%Z, [CInt 7; CStr "http://a"; CStr "T1"; CStr "x"]).
    split; [reflexivity|]; split; [left; reflexivity|].
    intros [imgs [prompt_content [Himgs Hin]]].
    vm_compute in Himgs; injection Himgs as <-.
    destruct Hin as [E|[]]; vm_compute in E; discriminate E.
Qed.

(** A frame whose user cells are all strings has no two users rendered
    alike. *)
Lemma strings_render_distinct (l : list cell) :
  NoDup l -> Forall (fun c => exists s, c = CStr s) l ->
  distinct_strings (map str l) = true.
Proof.
  induction 1 as [|c l Hc Hn IH]; simpl; intros Hs; [reflexivity|].
  inversion Hs as [|? ? [s ->] Hs']; subst.
  rewrite IH by exact Hs'; rewrite andb_true_r.
  apply negb_true_iff; destruct (existsb _ _) eqn:E; [|reflexivity].
  apply existsb_exists in E; destruct E as [x [Hx E]].
  apply String.eqb_eq in E; apply in_map_iff in Hx.
  destruct Hx as [c' [E' Hc']].
  rewrite Forall_forall in Hs'; destruct (Hs' c' Hc') as [s' ->].
  simpl in *; subst; contradiction.
Qed.

Lemma string_users_distinct (df : DataFrame) :
  Forall (fun r => exists s, cell_at (user_pos (columns df)) r = CStr s) (rows df) ->
  distinct_renderings df = true.
Proof.
  intros H; unfold distinct_renderings; apply strings_render_distinct.
  - apply group_keys_ascending.
  - apply Forall_forall; intros u Hu; apply users_of_In in Hu.
    destruct Hu as [_ [r [Hr <-]]]; rewrite Forall_forall in H; auto.
Qed.

(** Two users rendered alike: the group met second replaces the first
    in [users_data], and the row of the first is nowhere in the
    hierarchy. *)
Example colliding_renderings :
  transform_to_hierarchy
    (mkDataFrame ["userId"; "url"; "title"; "content"]
       [ (0%Z, [CInt 7; CStr "http://a"; CStr "T1"; CStr "x"]);
         (1%Z, [CStr "7"; CStr "http://b"; CStr "T1"; CStr "y"]) ])
  = Ok (PDict [(PStr "7",
                PDict [(PStr "userId", PStr "7");
                       (PStr "prompts",
                        PDict [(PStr "T1",
                                PDict [(PStr "title", PStr "T1");
                                       (PStr "content", PStr "y");
                                       (PStr "images",
                                        PList [PDict [(PStr "url", PStr "http://b");
                                                      (PStr "content", PStr "y");
                                                      (PStr "original_row_index", PInt 1)]])])])])]).
Proof. reflexivity. Qed.

(** ** Round trip *)

Lemma flat_map_map_l {A B C : Type} (f : B -> list C) (g : A -> B) (l : list A) :
  flat_map f (map g l) = flat_map (fun x => f (g x)) l.
Proof.
  induction l as [|x l IH]; simpl; [reflexivity | rewrite IH; reflexivity].
Qed.

Lemma map_flat_map_r {A B C : Type} (f : B -> C) (g : A -> list B) (l : list A) :
  map f (flat_map g l) = flat_map (fun x => map f (g x)) l.
Proof.
  induction l as [|x l IH]; simpl; [reflexivity|].
  rewrite map_app, IH; reflexivity.
Qed.

Lemma flat_map_perm {A B : Type} (f g : A -> list B) (l : list A) :
  (forall x, In x l -> Permutation (f x) (g x)) ->
  Permutation (flat_map f l) (flat_map g l).
Proof.
  induction l as [|x l IH]; simpl; intros H; [constructor|].
  apply Permutation_app; [apply H; left; reflexivity|].
  apply IH; intros y Hy; apply H; right; exact Hy.
Qed.

Lemma uniform_content_inv (df : DataFrame) (r1 r2 : row) :
  uniform_content df = true -> In r1 (rows df) -> In r2 (rows df) ->
  cell_at (user_pos (columns df)) r1 = cell_at (user_pos (columns df)) r2 ->
  cell_at (title_pos (columns df)) r1 = cell_at (title_pos (columns df)) r2 ->
  cell_at (content_pos (columns df)) r1 = cell_at (content_pos (columns df)) r2.
Proof.
  unfold uniform_content; intros H H1 H2 Eu Et.
  rewrite forallb_forall in H; specialize (H r1 H1).
  rewrite forallb_forall in H; specialize (H r2 H2).
  rewrite Eu, Et, !cell_eqb_refl in H; simpl in H.
  apply cell_eqb_eq; exact H.
Qed.

(** When no row lacks its user or its title, the groups hold the rows
    of the frame, each once. *)
Lemma grouped_perm (df : DataFrame) :
  (forall r, In r (rows df) ->
     notna (cell_at (user_pos (columns df)) r) = true
     /\ notna (cell_at (title_pos (columns df)) r) = true) ->
  Permutation (grouped df) (rows df).
Proof.
  intros Hna; unfold grouped.
  transitivity (flat_map (fun u => user_rows df u) (users_of df)).
  - apply flat_map_perm; intros u _.
    apply groups_partition; [apply group_keys_ascending|].
    intros r Hr; apply group_keys_In.
    pose proof Hr as Hr'; apply group_rows_In in Hr'; destruct Hr' as [Hin _].
    split; [apply Hna; exact Hin | exists r; auto].
  - apply groups_partition; [apply group_keys_ascending|].
    intros r Hr; apply group_keys_In.
    split; [apply Hna; exact Hr | exists r; auto].
Qed.

(** The records of the untouched hierarchy are the rows, group after
    group. *)
Lemma records_of_hierarchy (df : DataFrame) :
  has_column "content" (columns df) = true ->
  distinct_renderings df = true ->
  uniform_content df = true ->
  records_of (hierarchy_of df) = map (row_record (columns df)) (grouped df).
Proof.
  intros Hc Hd Hu.
  rewrite (hierarchy_entries df Hd).
  unfold records_of, grouped, user_entries; cbn [entries].
  rewrite flat_map_map_l, map_flat_map_r.
  apply flat_map_ext_In; intros u _; cbn [fst snd].
  unfold user_records.
  change (entries (field (user_dict df u) "prompts" (PDict [])))
    with (prompts_in (user_dict df u)).
  rewrite prompts_in_user_dict, flat_map_map_l, map_flat_map_r.
  apply flat_map_ext_In; intros t Ht; cbn [fst snd].
  unfold prompt_records.
  change (elements (field (prompt_dict (columns df) t (members df u t)) "images" (PList [])))
    with (images_in (prompt_dict (columns df) t (members df u t))).
  rewrite images_in_prompt_dict, map_map.
  pose proof (group_rows_nonempty _ _ _ Ht) as Hne.
  fold (members df u t) in Hne.
  destruct (members df u t) as [|first rest] eqn:Em; [contradiction|].
  assert (Hfirst : In first (members df u t)) by (rewrite Em; left; reflexivity).
  apply members_In in Hfirst; destruct Hfirst as [Hf1 [Hf2 Hf3]].
  apply map_ext_in; intros r Hr.
  rewrite <- Em in Hr; apply members_In in Hr; destruct Hr as [Hr1 [Hr2 Hr3]].
  unfold record_of, row_record.
  change (field (prompt_dict (columns df) t (first :: rest)) "content" (PStr ""))
    with (group_content (columns df) (first :: rest)).
  unfold group_content; rewrite Hc.
  rewrite (uniform_content_inv df first r Hu Hf1 Hr1) by congruence.
  rewrite Hr2, Hr3; reflexivity.
Qed.

(** C2, as the code has it: for a CSV with the columns userId, url,
    title, content in which the rows of a (userId, title) pair agree on
    content, upload followed by an unfiltered export returns one record
    per row, with the row's userId (as a string), title, content and
    url, [is_defective] false and [review_comment] empty; the records
    are the rows of the frame taken group after group, users and titles
    in ascending key order and the rows of a group in input order, so
    they are a rearrangement of the input rows and not in general in
    input order. *)
Theorem round_trip_grouped (raw : DataFrame) :
  columns raw = ["userId"; "url"; "title"; "content"] ->
  distinct_renderings (normalized raw) = true ->
  uniform_content (normalized raw) = true ->
  round_trip raw
  = Ok (map (row_record ["userId"; "url"; "title"; "content"]) (grouped (normalized raw)))
  /\ Permutation (grouped (normalized raw)) (rows (normalized raw))
  /\ rows (normalized raw) = map (fill_row 4) (rows raw)
  /\ ascending (users_of (normalized raw))
  /\ (forall u, ascending (titles_of (normalized raw) u))
  /\ (forall u t,
        members (normalized raw) u t
        = filter (fun r => cell_eqb (cell_at 0 r) u && cell_eqb (cell_at 2 r) t)
                 (rows (normalized raw))).
Proof.
  intros Hcols Hd Hu.
  assert (Hc : columns (normalized raw) = ["userId"; "url"; "title"; "content"])
    by (unfold normalized, clean_data, strip_columns; simpl; rewrite Hcols; reflexivity).
  assert (Hw : well_labelled (columns (normalized raw)) = true)
    by (rewrite Hc; reflexivity).
  split.
  { unfold round_trip, ingest_build.
    rewrite (transform_to_hierarchy_value _ Hw); cbn [bind].
    rewrite flatten_value by apply hierarchy_walkable.
    rewrite selected_all, records_of_hierarchy; auto.
    - rewrite Hc; reflexivity.
    - rewrite Hc; reflexivity. }
  split.
  { apply grouped_perm; intros r Hr.
    pose proof (well_labelled_inv _ Hw) as [H1 [H2 _]].
    unfold normalized in *; split.
    - apply (clean_data_notna _ "userId"); assumption.
    - apply (clean_data_notna _ "title"); assumption. }
  split.
  { unfold normalized; rewrite clean_data_rows.
    fold (normalized raw); rewrite Hc; reflexivity. }
  split; [apply group_keys_ascending|].
  split; [intros u; apply group_keys_ascending|].
  intros u t; rewrite members_filter, Hc; reflexivity.
Qed.

Lemma round_trip_grouped_witness :
  (columns two_users = ["userId"; "url"; "title"; "content"]
   /\ distinct_renderings (normalized two_users) = true
   /\ uniform_content (normalized two_users) = true)
  /\ round_trip two_users
     = Ok [flat_row (PStr "u1") (PStr "T1") (PStr "y") (PStr "http://b")
                    (PBool false) (PStr "");
           flat_row (PStr "u2") (PStr "T1") (PStr "x") (PStr "http://a")
                    (PBool false) (PStr "")].
Proof.
  split; [repeat split; reflexivity|].
  destruct (round_trip_grouped two_users eq_refl eq_refl eq_refl) as [H _].
  rewrite H; reflexivity.
Defined.

(** C2 as stated fails on [two_users]: the frame meets its condition,
    and the records come back with user u1 before user u2, against
    the order of the rows. *)
Lemma round_trip_order_refuted :
  columns two_users = ["userId"; "url"; "title"; "content"]
  /\ uniform_content (normalized two_users) = true
  /\ exists records, round_trip two_users = Ok records
       /\ ~ rows_come_back_in_order (normalized two_users) records.
Proof.
  split; [reflexivity|]; split; [reflexivity|].
  eexists; split; [reflexivity|].
  unfold rows_come_back_in_order; intros H; vm_compute in H; discriminate H.
Qed.

(* ================================================================= *)
(** * Further properties *)

(** ** Normalization *)

Lemma reconcile_columns_length (cols : list string) :
  List.length (reconcile_columns cols) = List.length cols.
Proof.
  symmetry; eapply Forall2_length; apply reconcile_columns_reconciled.
Qed.

Lemma fill_row_length (n : nat) (r : row) : List.length (snd (fill_row n r)) = n.
Proof. unfold fill_row; simpl; rewrite length_map; apply pad_length. Qed.

(** X1: [clean_data] keeps the rows, their index labels and the number
    of columns; in every row it turns each missing cell under a label
    into the empty string and leaves every other cell as it is, so
    that no cell under a label is missing afterwards. *)
Theorem clean_data_fills_every_cell (raw : DataFrame) :
  List.length (columns (clean_data raw)) = List.length (columns raw)
  /\ map fst (rows (clean_data raw)) = map fst (rows raw)
  /\ forall i r0, nth_error (rows raw) i = Some r0 ->
       exists r, nth_error (rows (clean_data raw)) i = Some r
         /\ List.length (snd r) = List.length (columns raw)
         /\ forall p, p < List.length (columns raw) ->
              cell_at p r = match cell_at p r0 with NaN => CStr "" | c => c end
              /\ notna (cell_at p r) = true.
Proof.
  assert (Hlen : List.length (columns (clean_data raw)) = List.length (columns raw))
    by apply reconcile_columns_length.
  split; [exact Hlen|]; split.
  - rewrite clean_data_rows, map_map; reflexivity.
  - intros i r0 Hi.
    exists (fill_row (List.length (columns (clean_data raw))) r0); split.
    + rewrite clean_data_rows, nth_error_map, Hi; reflexivity.
    + split; [rewrite fill_row_length; exact Hlen|].
      intros p Hp; rewrite cell_at_fill_row by (rewrite Hlen; exact Hp).
      split; [destruct (cell_at p r0); reflexivity | apply fill_cell_notna].
Qed.

(** *** Normalizing twice *)

Lemma lstrip_clean (s : string) : starts_clean s = true -> PyStr.lstrip s = s.
Proof.
  destruct s as [|c s]; simpl; [reflexivity|].
  intros H; apply negb_true_iff in H; rewrite H; reflexivity.
Qed.

Lemma rstrip_clean (s : string) : ends_clean s = true -> PyStr.rstrip s = s.
Proof.
  induction s as [|c s IH]; [reflexivity|].
  destruct s as [|c' s'].
  - simpl; intros H; apply negb_true_iff in H; rewrite H; reflexivity.
  - intros H; change (ends_clean (String c' s') = true) in H.
    change (PyStr.rstrip (String c (String c' s')))
      with (match PyStr.rstrip (String c' s') with
            | EmptyString => if PyStr.isspace c then EmptyString else String c EmptyString
            | r => String c r
            end).
    rewrite (IH H); reflexivity.
Qed.

Lemma strip_strip (s : string) : PyStr.strip (PyStr.strip s) = PyStr.strip s.
Proof.
  destruct (strip_trims s) as [l [r [_ [_ [_ [Hs He]]]]]].
  unfold PyStr.strip at 1.
  rewrite (lstrip_clean _ Hs), (rstrip_clean _ He); reflexivity.
Qed.

Lemma required_stripped (m : string) : In m required -> PyStr.strip m = m.
Proof.
  unfold required; simpl; intros H.
  repeat (destruct H as [<-|H]; [reflexivity|]); contradiction.
Qed.

Lemma reconciled_stripped (old new : string) :
  reconciled old new -> PyStr.strip old = old -> PyStr.strip new = new.
Proof.
  intros [->|[H _]] Ho; [exact Ho | apply required_stripped; exact H].
Qed.

Lemma reconcile_columns_stripped (cols : list string) :
  Forall (fun c => PyStr.strip c = c) cols ->
  map PyStr.strip (reconcile_columns cols) = reconcile_columns cols.
Proof.
  intros H.
  pose proof (reconcile_columns_reconciled cols) as HF.
  induction HF as [|old new l l' Hr HF IH]; simpl; [reflexivity|].
  inversion H as [|? ? Ho Hl]; subst.
  rewrite (reconciled_stripped _ _ Hr Ho), IH by exact Hl; reflexivity.
Qed.

Lemma guess_column_keeps_required (cols : list string) (m m' : string) :
  In m required -> In m' required -> In m cols -> In m (guess_column cols m').
Proof.
  intros Hm Hm' H; unfold guess_column.
  destruct (find _ cols) as [c0|] eqn:E; [|exact H].
  apply find_some in E; destruct E as [Hc0 E]; apply String.eqb_eq in E.
  destruct (String.eqb_spec m c0) as [Heq|Hne].
  - subst c0.
    assert (m = m') by (apply required_lower_inj; auto).
    subst m'; apply rename_In; exact Hc0.
  - apply rename_other; assumption.
Qed.

Lemma reconcile_columns_keeps (cols : list string) (m : string) :
  In m required -> In m cols -> In m (reconcile_columns cols).
Proof.
  intros Hm; unfold reconcile_columns.
  assert (Hms : forall x, In x (filter (fun c => negb (has_column c cols)) required) ->
                          In x required)
    by (intros x Hx; apply filter_In in Hx; tauto).
  revert Hms; generalize (filter (fun c => negb (has_column c cols)) required) as ms.
  intros ms; revert cols; induction ms as [|m' ms IH]; cbn [fold_left]; intros cols Hms H;
    [exact H|].
  apply IH; [intros x Hx; apply Hms; right; exact Hx|].
  apply guess_column_keeps_required; auto; apply Hms; left; reflexivity.
Qed.

Lemma Forall2_In_r {A B : Type} (R : A -> B -> Prop) (l : list A) (l' : list B) (y : B) :
  Forall2 R l l' -> In y l' -> exists x, In x l /\ R x y.
Proof.
  induction 1 as [|a b l l' Hab HF IH]; simpl; [intros []|].
  intros [<-|H]; [exists a; auto|].
  destruct (IH H) as [x [Hx Hr]]; exists x; auto.
Qed.

(** A recognized name still missing after reconciliation has no label
    equal to it up to case. *)
Lemma reconcile_columns_no_match (cols : list string) (m x : string) :
  In m required -> ~ In m (reconcile_columns cols) ->
  In x (reconcile_columns cols) -> PyStr.lower x <> PyStr.lower m.
Proof.
  intros Hm Hnot Hx Hl.
  destruct (Forall2_In_r _ _ _ _ (reconcile_columns_reconciled cols) Hx)
    as [old [Hold [->|[Hreq Hlo]]]].
  - apply Hnot.
    destruct (in_dec string_dec m cols) as [Hin|Hout].
    + apply reconcile_columns_keeps; assumption.
    + apply reconcile_columns_places; auto; exists old; auto.
  - apply Hnot.
    assert (x = m) by (apply required_lower_inj; auto).
    subst x; exact Hx.
Qed.

Lemma fold_guess_no_match (ms cols : list string) :
  (forall m x, In m ms -> In x cols -> PyStr.lower x <> PyStr.lower m) ->
  fold_left guess_column ms cols = cols.
Proof.
  induction ms as [|m ms IH]; cbn [fold_left]; intros H; [reflexivity|].
  assert (E : guess_column cols m = cols).
  { unfold guess_column; destruct (find _ cols) as [c0|] eqn:E; [|reflexivity].
    apply find_some in E; destruct E as [Hc0 E]; apply String.eqb_eq in E.
    exfalso; apply (H m c0); auto; left; reflexivity. }
  rewrite E; apply IH; intros m' x Hm' Hx; apply H; [right|]; assumption.
Qed.

Lemma reconcile_columns_idempotent (cols : list string) :
  reconcile_columns (reconcile_columns cols) = reconcile_columns cols.
Proof.
  unfold reconcile_columns at 1; apply fold_guess_no_match.
  intros m x Hm Hx; apply filter_In in Hm; destruct Hm as [Hreq Hmiss].
  apply (reconcile_columns_no_match cols); auto.
  intros Hin; apply has_column_In in Hin; rewrite Hin in Hmiss; discriminate.
Qed.

Lemma pad_full (n : nat) (cs : list cell) : List.length cs = n -> pad n cs = cs.
Proof.
  revert cs; induction n as [|n IH]; intros [|c cs] H; simpl in *; try discriminate;
    [reflexivity|].
  rewrite IH by lia; reflexivity.
Qed.

Lemma fill_row_idempotent (n : nat) (r : row) :
  fill_row n (fill_row n r) = fill_row n r.
Proof.
  unfold fill_row; simpl; f_equal.
  rewrite pad_full by (rewrite length_map; apply pad_length).
  rewrite map_map; apply map_ext; intros c; destruct c; reflexivity.
Qed.

Lemma clean_data_idempotent (df : DataFrame) :
  clean_data (clean_data df) = clean_data df.
Proof.
  unfold clean_data, fillna; simpl.
  rewrite reconcile_columns_idempotent; f_equal.
  rewrite map_map; apply map_ext; intros r; apply fill_row_idempotent.
Qed.

(** X2: normalization is idempotent: trimming and reconciling the
    labels and filling the cells of a frame that went through
    [parse_file]'s trimming and [clean_data] gives the same frame
    again. *)
Theorem normalized_idempotent (df : DataFrame) :
  normalized (normalized df) = normalized df
  /\ clean_data (clean_data df) = clean_data df
  /\ strip_columns (strip_columns df) = strip_columns df.
Proof.
  assert (Hs : strip_columns (strip_columns df) = strip_columns df).
  { unfold strip_columns; simpl; f_equal.
    rewrite map_map; apply map_ext; intros c; apply strip_strip. }
  split; [|split; [apply clean_data_idempotent | exact Hs]].
  unfold normalized.
  assert (E : strip_columns (clean_data (strip_columns df)) = clean_data (strip_columns df)).
  { unfold strip_columns at 1; unfold clean_data, fillna; simpl; f_equal.
    apply reconcile_columns_stripped.
    apply Forall_forall; intros c Hc; apply in_map_iff in Hc.
    destruct Hc as [s [<- _]]; apply strip_strip. }
  rewrite E; apply clean_data_idempotent.
Qed.

(** ** The export filter on any annotation *)

Lemma kept_passes (reviewed_only user_id title prompt_info img : pyval) :
  kept reviewed_only img = passes reviewed_only (record_of user_id title prompt_info img).
Proof.
  unfold kept, passes, record_of, flat_row.
  change (field (PDict _) "is_defective" (PBool false))
    with (field img "is_defective" (PBool false)).
  change (field (PDict _) "review_comment" (PStr ""))
    with (field img "review_comment" (PStr "")).
  destruct (truthy reviewed_only), (truthy (field img "is_defective" (PBool false))),
    (truthy (field img "review_comment" (PStr ""))); reflexivity.
Qed.

Lemma selected_passes (reviewed_only users_data : pyval) :
  selected reviewed_only users_data = filter (passes reviewed_only) (records_of users_data).
Proof.
  unfold selected, records_of, user_records, prompt_records.
  rewrite filter_flat_map; apply flat_map_ext_In; intros u _.
  rewrite filter_flat_map; apply flat_map_ext_In; intros p _.
  rewrite filter_map_comm; f_equal.
  apply filter_ext_on; intros img _; apply kept_passes.
Qed.

(** X3: whatever the values of [reviewed_only] and of the annotations,
    the export loop keeps a record exactly when [reviewed_only] is
    false in Python's sense, or [is_defective] or [review_comment] is
    true in Python's sense (so [is_defective = 1] or ["yes"] counts,
    and [review_comment = None] does not); the records kept stay in
    the order of the unfiltered export, which a false [reviewed_only]
    returns whole. *)
Theorem export_filter_is_truthiness (users_data reviewed_only : pyval) :
  walkable users_data = true ->
  flatten users_data reviewed_only
  = Ok (filter (passes reviewed_only) (records_of users_data))
  /\ (truthy reviewed_only = false ->
      flatten users_data reviewed_only = Ok (records_of users_data))
  /\ (forall records, flatten users_data reviewed_only = Ok records ->
        List.length records <= List.length (records_of users_data)).
Proof.
  intros Hw.
  assert (H : flatten users_data reviewed_only
              = Ok (filter (passes reviewed_only) (records_of users_data)))
    by (rewrite flatten_value by exact Hw; rewrite selected_passes; reflexivity).
  split; [exact H|]; split.
  - intros Hf; rewrite H, filter_all; [reflexivity|].
    intros r _; unfold passes; rewrite Hf; reflexivity.
  - intros records Hr; rewrite H in Hr; injection Hr as <-.
    apply filter_length_le.
Qed.

Lemma export_filter_is_truthiness_witness :
  walkable scenario_B = true
  /\ flatten scenario_B (PStr "no")
     = Ok [flat_row (PStr "u1") (PStr "T1") (PStr "desc") (PStr "http://b")
                    (PBool true) (PStr "")]
  /\ flatten scenario_B (PInt 0) = Ok (records_of scenario_B).
Proof.
  split; [reflexivity|].
  destruct (export_filter_is_truthiness scenario_B (PStr "no") eq_refl) as [H1 _].
  destruct (export_filter_is_truthiness scenario_B (PInt 0) eq_refl) as [_ [H2 _]].
  split; [rewrite H1; reflexivity | apply H2; reflexivity].
Defined.

(** ** Keys, not fields *)

Lemma with_user_id_walkable (v : pyval) (users : dict) :
  forallb (fun kv => walkable_user (snd kv)) users = true ->
  forallb (fun kv => walkable_user (snd kv)) (map (with_user_id v) users) = true.
Proof.
  intros H; rewrite forallb_forall in H.
  apply forallb_forall; intros kv Hkv; apply in_map_iff in Hkv.
  destruct Hkv as [[k user] [<- Hin]]; specialize (H _ Hin).
  unfold with_user_id, walkable_user in *; cbn [fst snd] in *.
  rewrite field_set_other by discriminate.
  apply andb_prop in H; destruct H as [H H3].
  apply andb_prop in H; destruct H as [_ H2].
  rewrite H2, H3; reflexivity.
Qed.

(** X4: the export takes the [userId] of a record from the key under
    which the user sits in the hierarchy, never from the [userId]
    field inside the user: overwriting that field in every user leaves
    the export as it was. *)
Theorem export_reads_user_key (users : dict) (reviewed_only v : pyval) :
  walkable (PDict users) = true ->
  flatten (PDict (map (with_user_id v) users)) reviewed_only
  = flatten (PDict users) reviewed_only
  /\ forall records record, flatten (PDict users) reviewed_only = Ok records ->
       In record records ->
       In (field record "userId" PNone) (map fst users).
Proof.
  intros Hw; split.
  - rewrite (flatten_value reviewed_only (PDict users) Hw).
    rewrite flatten_value
      by (unfold walkable in *; simpl in *; apply with_user_id_walkable; exact Hw).
    f_equal; unfold selected; cbn [entries].
    rewrite flat_map_map_l; apply flat_map_ext_In; intros [k user] _.
    unfold with_user_id; cbn [fst snd].
    rewrite field_set_other by discriminate; reflexivity.
  - intros records record Hr Hin.
    rewrite (flatten_value reviewed_only (PDict users) Hw) in Hr; injection Hr as <-.
    unfold selected in Hin; cbn [entries] in Hin.
    apply in_flat_map in Hin; destruct Hin as [[k user] [Hu Hin]].
    apply in_flat_map in Hin; destruct Hin as [[t prompt] [_ Hin]].
    apply in_map_iff in Hin; destruct Hin as [img [<- _]].
    apply in_map_iff; exists (k, user); auto.
Qed.

Lemma export_reads_user_key_witness :
  walkable scenario_B = true
  /\ flatten (PDict (map (with_user_id (PStr "renamed")) (entries scenario_B))) (PBool false)
     = flatten scenario_B (PBool false).
Proof.
  split; [reflexivity|].
  apply (export_reads_user_key (entries scenario_B) (PBool false) (PStr "renamed")).
  reflexivity.
Defined.

(** ** Error and edge behaviour of the builder *)

Lemma group_keys_nil (p : nat) (rs : list row) :
  Forall (fun r => cell_at p r = NaN) rs -> group_keys p rs = [].
Proof.
  intros H; destruct (group_keys p rs) as [|k ks] eqn:E; [reflexivity|].
  assert (Hk : In k (group_keys p rs)) by (rewrite E; left; reflexivity).
  apply group_keys_In in Hk; destruct Hk as [Hn [r [Hr Hc]]].
  rewrite Forall_forall in H; rewrite (H r Hr) in Hc; subst k; discriminate.
Qed.

Lemma get_loc_none (label : string) (cols : list string) :
  count_label label cols = 0 -> get_loc label cols = Raise (KeyError label).
Proof. unfold get_loc; intros ->; reflexivity. Qed.

Lemma content_column_one (cols : list string) :
  count_label "content" cols <= 1 -> has_column "content" cols = true ->
  count_label "content" cols = 1.
Proof.
  rewrite has_column_count; intros Hle H.
  destruct (count_label "content" cols) as [|[|n]]; simpl in H;
    [discriminate | reflexivity | lia].
Qed.

Lemma prompt_content_value (cols : list string) (rs : list row) :
  count_label "content" cols <= 1 -> rs <> [] ->
  (if has_column "content" cols then first_of "content" (mkDataFrame cols rs)
   else Ok (PStr "")) = Ok (group_content cols rs).
Proof.
  intros Hc Hrs; unfold group_content.
  destruct (has_column "content" cols) eqn:E; [|reflexivity].
  unfold first_of; simpl; rewrite (get_loc_one _ _ (content_column_one cols Hc E)); simpl.
  destruct rs; [contradiction | reflexivity].
Qed.

(** Without a [url] column the first group that is met stops the
    loops. *)
Lemma user_loop_no_url (df : DataFrame) (uids : list cell) :
  count_label "title" (columns df) = 1 ->
  count_label "content" (columns df) <= 1 ->
  count_label "url" (columns df) = 0 ->
  (exists u, In u uids /\ titles_of df u <> []) ->
  forall us : dict,
    user_loop (map (fun u => (u, mkDataFrame (columns df) (user_rows df u))) uids) (PDict us)
    = Raise (KeyError "url").
Proof.
  intros Ht Hc Hurl; unfold user_loop.
  induction uids as [|u uids IH]; intros [u0 [Hin Hne]] us; [contradiction|].
  cbn [for_each map bind setitem].
  rewrite (groupby_one "title" (mkDataFrame _ _)) by exact Ht.
  cbn [bind columns rows].
  fold (title_pos (columns df)); fold (titles_of df u).
  destruct (titles_of df u) as [|t ts] eqn:Et.
  - cbn [map prompt_loop for_each bind].
    apply IH; destruct Hin as [->|Hin]; [congruence | exists u0; auto].
  - assert (Hm : group_rows (title_pos (columns df)) t (user_rows df u) <> [])
      by (apply group_rows_nonempty; fold (titles_of df u); rewrite Et; left; reflexivity).
    unfold prompt_loop; cbn [map for_each columns].
    rewrite (prompt_content_value _ _ Hc Hm); cbn [bind].
    fold (user_state (str u) []).
    rewrite set_prompt; cbn [bind].
    destruct (group_rows (title_pos (columns df)) t (user_rows df u)) as [|r rs];
      [contradiction|].
    unfold image_loop; cbn [for_each rows columns].
    unfold row_get at 1; rewrite (get_loc_none _ _ Hurl); reflexivity.
Qed.

(** X5: what [transform_to_hierarchy] does on a frame that lacks a
    label.  Without a [userId] column it raises [KeyError('userId')],
    rows or no rows, and with several it raises as well, [groupby]
    refusing the label.  With one, a frame in which no row has a user
    gives the empty hierarchy whatever its other columns.  As soon as
    a row has a user, a missing [title] column raises
    [KeyError('title')]; and as soon as a row has a user and a title,
    a missing [url] column raises [KeyError('url')]. *)
Theorem builder_missing_labels (df : DataFrame) :
  (count_label "userId" (columns df) = 0 ->
   transform_to_hierarchy df = Raise (KeyError "userId"))
  /\ (count_label "userId" (columns df) = 1 ->
      Forall (fun r => cell_at (user_pos (columns df)) r = NaN) (rows df) ->
      transform_to_hierarchy df = Ok (PDict []))
  /\ (count_label "userId" (columns df) = 1 ->
      count_label "title" (columns df) = 0 ->
      (exists r, In r (rows df) /\ notna (cell_at (user_pos (columns df)) r) = true) ->
      transform_to_hierarchy df = Raise (KeyError "title"))
  /\ (count_label "userId" (columns df) = 1 ->
      count_label "title" (columns df) = 1 ->
      count_label "content" (columns df) <= 1 ->
      count_label "url" (columns df) = 0 ->
      (exists r, In r (rows df) /\ has_keys df r = true) ->
      transform_to_hierarchy df = Raise (KeyError "url"))
  /\ (2 <= count_label "userId" (columns df) ->
      transform_to_hierarchy df = Raise (NotOneDimensional "userId")).
Proof.
  unfold transform_to_hierarchy; repeat split.
  - intros H; unfold groupby; rewrite (get_loc_none _ _ H); reflexivity.
  - intros H Hall; rewrite (groupby_one _ _ H); cbn [bind].
    fold (user_pos (columns df)); rewrite (group_keys_nil _ _ Hall); reflexivity.
  - intros H Ht [r [Hr Hn]]; rewrite (groupby_one _ _ H); cbn [bind].
    fold (user_pos (columns df)).
    destruct (group_keys (user_pos (columns df)) (rows df)) as [|u us] eqn:E.
    + assert (Hin : In (cell_at (user_pos (columns df)) r)
                       (group_keys (user_pos (columns df)) (rows df)))
        by (apply group_keys_In; split; [exact Hn | exists r; auto]).
      rewrite E in Hin; contradiction.
    + unfold user_loop; cbn [map for_each bind setitem].
      unfold groupby; simpl columns; rewrite (get_loc_none _ _ Ht); reflexivity.
  - intros H Ht Hc Hurl [r [Hr Hk]]; rewrite (groupby_one _ _ H); cbn [bind].
    fold (user_pos (columns df)).
    unfold has_keys in Hk; apply andb_prop in Hk; destruct Hk as [Hn1 Hn2].
    apply (user_loop_no_url df (users_of df) Ht Hc Hurl).
    exists (cell_at (user_pos (columns df)) r); split.
    + apply users_of_In; split; [exact Hn1 | exists r; auto].
    + intros E.
      assert (Hin : In (cell_at (title_pos (columns df)) r)
                       (titles_of df (cell_at (user_pos (columns df)) r)))
        by (apply titles_of_In; split; [exact Hn2 | exists r; auto]).
      rewrite E in Hin; contradiction.
  - intros H; unfold groupby, get_loc.
    destruct (count_label "userId" (columns df)) as [|[|n]]; [lia | lia | reflexivity].
Qed.

Lemma builder_missing_labels_witness :
  transform_to_hierarchy (mkDataFrame ["url"; "title"] []) = Raise (KeyError "userId")
  /\ transform_to_hierarchy (mkDataFrame ["userId"] [(0%Z, [NaN])]) = Ok (PDict [])
  /\ transform_to_hierarchy no_title = Raise (KeyError "title")
  /\ transform_to_hierarchy no_url = Raise (KeyError "url").
Proof.
  split; [|split; [|split]].
  - apply (builder_missing_labels (mkDataFrame ["url"; "title"] [])); reflexivity.
  - apply (builder_missing_labels (mkDataFrame ["userId"] [(0%Z, [NaN])]));
      [reflexivity | repeat constructor].
  - apply (builder_missing_labels no_title); [reflexivity | reflexivity |].
    eexists; split; [left; reflexivity | reflexivity].
  - apply (builder_missing_labels no_url); [reflexivity | reflexivity | apply Nat.leb_le; reflexivity | reflexivity |].
    eexists; split; [right; left; reflexivity | reflexivity].
Defined.

(** ** Rows without a user or a title *)

Lemma filter_respects_perm {X : Type} (keep : X -> bool) (xs ys : list X) :
  Permutation xs ys -> Permutation (filter keep xs) (filter keep ys).
Proof.
  intros Hp; induction Hp as [|x xs ys Hp IH|x y xs|xs ys zs H1 IH1 H2 IH2]; simpl.
  - constructor.
  - destruct (keep x); [apply perm_skip|]; exact IH.
  - destruct (keep x), (keep y); try reflexivity; apply perm_swap.
  - etransitivity; eassumption.
Qed.

Lemma filter_filter {A : Type} (f g : A -> bool) (l : list A) :
  filter g (filter f l) = filter (fun x => f x && g x) l.
Proof.
  induction l as [|x l IH]; simpl; [reflexivity|].
  destruct (f x); simpl; [destruct (g x)|]; rewrite IH; reflexivity.
Qed.

(** The groups of [groupby] hold the rows whose key is not missing. *)
Lemma groups_partition_notna (p : nat) (rs : list row) :
  Permutation (flat_map (fun k => group_rows p k rs) (group_keys p rs))
              (filter (fun r => notna (cell_at p r)) rs).
Proof.
  set (rs' := filter (fun r => notna (cell_at p r)) rs).
  assert (E : flat_map (fun k => group_rows p k rs) (group_keys p rs)
              = flat_map (fun k => group_rows p k rs') (group_keys p rs)).
  { apply flat_map_ext_In; intros k Hk.
    unfold rs', group_rows; rewrite filter_filter.
    apply filter_ext_on; intros r _.
    destruct (cell_eqb (cell_at p r) k) eqn:Ek; [|rewrite andb_false_r; reflexivity].
    apply cell_eqb_eq in Ek; rewrite Ek.
    apply group_keys_In in Hk; destruct Hk as [-> _]; reflexivity. }
  rewrite E; apply groups_partition; [apply group_keys_ascending|].
  intros r Hr; apply filter_In in Hr; destruct Hr as [Hr Hn].
  apply group_keys_In; split; [exact Hn | exists r; auto].
Qed.

Lemma grouped_keeps_rows_with_keys (df : DataFrame) :
  Permutation (grouped df) (filter (has_keys df) (rows df)).
Proof.
  unfold grouped.
  transitivity (flat_map (fun u => filter (fun r => notna (cell_at (title_pos (columns df)) r))
                                          (user_rows df u))
                         (users_of df)).
  - apply flat_map_perm; intros u _; apply groups_partition_notna.
  - rewrite <- filter_flat_map.
    unfold has_keys.
    rewrite <- (filter_filter (fun r => notna (cell_at (user_pos (columns df)) r))).
    apply filter_respects_perm, groups_partition_notna.
Qed.

Lemma record_urls (df : DataFrame) :
  distinct_renderings df = true ->
  map (fun record => field record "url" PNone) (records_of (hierarchy_of df))
  = map (fun r => py (cell_at (url_pos (columns df)) r)) (grouped df).
Proof.
  intros Hd; rewrite (hierarchy_entries df Hd).
  unfold records_of, grouped, user_entries; cbn [entries].
  rewrite flat_map_map_l, !map_flat_map_r.
  apply flat_map_ext_In; intros u _; cbn [fst snd].
  unfold user_records.
  change (entries (field (user_dict df u) "prompts" (PDict [])))
    with (prompts_in (user_dict df u)).
  rewrite prompts_in_user_dict, flat_map_map_l, !map_flat_map_r.
  apply flat_map_ext_In; intros t _; cbn [fst snd].
  unfold prompt_records.
  change (elements (field (prompt_dict (columns df) t (members df u t)) "images" (PList [])))
    with (images_in (prompt_dict (columns df) t (members df u t))).
  rewrite images_in_prompt_dict, !map_map.
  apply map_ext; intros r; reflexivity.
Qed.

(** X6: on a frame whose cells were not filled and in which no two
    users are rendered alike by [str], the rows with a missing
    [userId] or a missing [title] are left out of the hierarchy and of
    the export, and only they: the builder followed by the unfiltered
    export returns one record for each row that has both, with that
    row's url, group after group. *)
Theorem rows_without_keys_are_dropped (df : DataFrame) :
  well_labelled (columns df) = true ->
  distinct_renderings df = true ->
  exists h records,
    transform_to_hierarchy df = Ok h
    /\ flatten h (PBool false) = Ok records
    /\ map (fun record => field record "url" PNone) records
       = map (fun r => py (cell_at (url_pos (columns df)) r)) (grouped df)
    /\ Permutation (grouped df) (filter (has_keys df) (rows df))
    /\ List.length records = List.length (filter (has_keys df) (rows df)).
Proof.
  intros Hw Hd.
  exists (hierarchy_of df), (records_of (hierarchy_of df)).
  split; [apply transform_to_hierarchy_value; exact Hw|].
  split; [rewrite flatten_value by apply hierarchy_walkable; rewrite selected_all; reflexivity|].
  split; [apply record_urls; exact Hd|].
  split; [apply grouped_keeps_rows_with_keys|].
  rewrite <- (length_map (fun record => field record "url" PNone)), (record_urls df Hd).
  rewrite length_map; apply Permutation_length, grouped_keeps_rows_with_keys.
Qed.

Lemma rows_without_keys_are_dropped_witness :
  (well_labelled (columns unfilled) = true /\ distinct_renderings unfilled = true)
  /\ exists h records,
       transform_to_hierarchy unfilled = Ok h
       /\ flatten h (PBool false) = Ok records
       /\ List.length records = 1.
Proof.
  split; [split; reflexivity|].
  destruct (rows_without_keys_are_dropped unfilled eq_refl eq_refl)
    as [h [records [H1 [H2 [_ [_ H5]]]]]].
  exists h, records; auto.
Defined.

(** ** Users rendered alike *)

Lemma dict_get_set_same (k v : pyval) (d : dict) :
  key_eqb k k = true -> dict_get k (dict_set k v d) = Some v.
Proof.
  intros Hk; induction d as [|[k0 v0] d IH]; simpl.
  - rewrite Hk; reflexivity.
  - destruct (key_eqb k k0) eqn:E; simpl; rewrite E; [reflexivity | exact IH].
Qed.

Lemma dict_get_set_diff (k k' v : pyval) (d : dict) :
  plain_key k -> plain_key k' -> Forall plain_key (map fst d) -> k <> k' ->
  dict_get k (dict_set k' v d) = dict_get k d.
Proof.
  intros Hk Hk' Hd Hne.
  assert (Hf : key_eqb k k' = false).
  { destruct (key_eqb k k') eqn:E; [|reflexivity].
    apply key_eqb_eq in E; auto; contradiction. }
  induction d as [|[k0 v0] d IH]; simpl.
  - rewrite Hf; reflexivity.
  - inversion Hd as [|? ? Hk0 Hd']; subst.
    destruct (key_eqb k' k0) eqn:E; simpl.
    + apply key_eqb_eq in E; auto; subst k0; rewrite Hf; reflexivity.
    + rewrite IH by exact Hd'; reflexivity.
Qed.

Lemma fold_dict_set_plain (kvs : list (pyval * pyval)) (d : dict) :
  Forall plain_key (map fst kvs) -> Forall plain_key (map fst d) ->
  Forall plain_key
    (map fst (fold_left (fun d kv => dict_set (fst kv) (snd kv) d) kvs d)).
Proof.
  revert d; induction kvs as [|[k v] kvs IH]; simpl; intros d Hk Hd; [exact Hd|].
  inversion Hk; subst; apply IH; [assumption | apply dict_set_plain; assumption].
Qed.

Lemma fold_dict_set_untouched (kvs : list (pyval * pyval)) (d : dict) (k : pyval) :
  plain_key k -> Forall plain_key (map fst kvs) -> Forall plain_key (map fst d) ->
  ~ In k (map fst kvs) ->
  dict_get k (fold_left (fun d kv => dict_set (fst kv) (snd kv) d) kvs d) = dict_get k d.
Proof.
  intros Hk; revert d; induction kvs as [|[k' v'] kvs IH]; simpl; intros d Hks Hd Hn;
    [reflexivity|].
  inversion Hks; subst.
  rewrite IH; [| assumption | apply dict_set_plain; assumption | tauto].
  apply dict_get_set_diff; auto.
Qed.

(** The value found under a key is the one assigned last. *)
Lemma dict_of_last (l1 l2 : list (pyval * pyval)) (k v : pyval) :
  plain_key k -> Forall plain_key (map fst l1) -> Forall plain_key (map fst l2) ->
  ~ In k (map fst l2) ->
  dict_get k (dict_of (l1 ++ (k, v) :: l2)) = Some v.
Proof.
  intros Hk H1 H2 Hn; unfold dict_of.
  rewrite fold_left_app; cbn [fold_left fst snd].
  rewrite fold_dict_set_untouched; auto.
  - apply dict_get_set_same, key_eqb_refl, Hk.
  - apply dict_set_plain; [exact Hk|].
    apply fold_dict_set_plain; [exact H1 | constructor].
Qed.

(** X7: when several users of the frame are rendered by [str] as the
    same string, the entry of the hierarchy under that string is the
    one of the user that [groupby] yields last among them: it holds
    that user's prompts and images only, the earlier users' having
    been replaced by the assignment of line 62. *)
Theorem later_user_replaces_earlier (df : DataFrame) (before after : list cell) (u : cell) :
  well_labelled (columns df) = true ->
  users_of df = before ++ u :: after ->
  (forall u', In u' after -> str u' <> str u) ->
  exists h, transform_to_hierarchy df = Ok h
    /\ dict_get (PStr (str u)) (entries h) = Some (user_dict df u)
    /\ forall u0 user, In u0 before -> str u0 = str u ->
         dict_get (PStr (str u0)) (entries h) = Some user ->
         prompts_in user
         = map (fun t => (py t, prompt_dict (columns df) t (members df u t)))
               (titles_of df u).
Proof.
  intros Hw Hu Hafter; exists (hierarchy_of df).
  split; [apply transform_to_hierarchy_value; exact Hw|].
  assert (H : dict_get (PStr (str u)) (entries (hierarchy_of df)) = Some (user_dict df u)).
  { unfold hierarchy_of, user_entries; cbn [entries]; rewrite Hu, map_app; cbn [map].
    apply dict_of_last.
    - exact I.
    - rewrite map_map; apply Forall_forall; intros k Hk; apply in_map_iff in Hk.
      destruct Hk as [x [<- _]]; exact I.
    - rewrite map_map; apply Forall_forall; intros k Hk; apply in_map_iff in Hk.
      destruct Hk as [x [<- _]]; exact I.
    - rewrite map_map; intros Hin; apply in_map_iff in Hin.
      destruct Hin as [u' [E Hu']]; simpl in E.
      apply (Hafter u' Hu'); congruence. }
  split; [exact H|].
  intros u0 user _ E Hg; rewrite E, H in Hg; injection Hg as <-.
  apply prompts_in_user_dict.
Qed.

Lemma later_user_replaces_earlier_witness :
  (well_labelled (columns colliding_users) = true
   /\ users_of colliding_users = [CInt 7] ++ CStr "7" :: [])
  /\ exists h, transform_to_hierarchy colliding_users = Ok h
       /\ dict_get (PStr "7") (entries h) = Some (user_dict colliding_users (CStr "7")).
Proof.
  split; [split; reflexivity|].
  destruct (later_user_replaces_earlier colliding_users [CInt 7] [] (CStr "7")
              eq_refl eq_refl) as [h [H1 [H2 _]]].
  - intros u' [].
  - exists h; split; assumption.
Defined.

(** ** Export of a fresh hierarchy *)

(** X8: a hierarchy that comes straight from the builder carries no
    annotation, so its export with [reviewed_only] set returns no
    record at all (and no error), whatever the frame. *)
Theorem fresh_hierarchy_has_nothing_reviewed (df : DataFrame) (reviewed_only : pyval) :
  well_labelled (columns df) = true ->
  truthy reviewed_only = true ->
  (h <- transform_to_hierarchy df ;; flatten h reviewed_only) = Ok [].
Proof.
  intros Hw Ht.
  rewrite (transform_to_hierarchy_value df Hw); cbn [bind].
  rewrite flatten_value by apply hierarchy_walkable.
  rewrite selected_passes, filter_none; [reflexivity|].
  intros record Hrec; unfold records_of in Hrec.
  apply in_flat_map in Hrec; destruct Hrec as [[k user] [Hu Hrec]].
  apply hierarchy_entry in Hu; destruct Hu as [u [_ [_ ->]]].
  unfold user_records in Hrec; apply in_flat_map in Hrec.
  destruct Hrec as [[t prompt] [Hp Hrec]].
  cbn [fst snd] in Hp, Hrec.
  change (entries (field (user_dict df u) "prompts" (PDict [])))
    with (prompts_in (user_dict df u)) in Hp.
  rewrite prompts_in_user_dict in Hp; apply in_map_iff in Hp.
  destruct Hp as [t0 [E _]]; injection E as <- <-.
  unfold prompt_records in Hrec; cbn [fst snd] in Hrec.
  change (elements (field (prompt_dict (columns df) t0 (members df u t0)) "images" (PList [])))
    with (images_in (prompt_dict (columns df) t0 (members df u t0))) in Hrec.
  rewrite images_in_prompt_dict, map_map in Hrec.
  apply in_map_iff in Hrec; destruct Hrec as [r [<- _]].
  unfold passes; rewrite Ht; reflexivity.
Qed.

Lemma fresh_hierarchy_has_nothing_reviewed_witness :
  (well_labelled (columns scenario_A) = true /\ truthy (PBool true) = true)
  /\ (h <- transform_to_hierarchy scenario_A ;; flatten h (PBool true)) = Ok [].
Proof.
  split; [split; reflexivity|].
  apply (fresh_hierarchy_has_nothing_reviewed scenario_A (PBool true)); reflexivity.
Defined.

(* ================================================================= *)
(** * The routes *)

Section RouteFacts.

Variable read_csv : list Byte.byte -> DataFrame + string.
Variable read_excel : list Byte.byte -> DataFrame + string.
Variable jsonify : pyval -> result pyval.
Variable to_csv : list pyval -> result (list Byte.byte).
Variable to_excel : list pyval -> result (list Byte.byte).

(** X9: [upload_file] answers 400 exactly when the request has no
    part called [file] or when that part has an empty file name; it
    decides so before anything is read, so that the answer does not
    depend on the readers or on the encoder. *)
Theorem upload_rejects_before_reading (files : list (string * FileStorage)) :
  (status (upload_file read_csv read_excel jsonify files) = 400
   <-> files_get "file" files = None
       \/ exists file, files_get "file" files = Some file /\ filename file = "")
  /\ (status (upload_file read_csv read_excel jsonify files) = 400 ->
      forall read_csv' read_excel' jsonify',
        upload_file read_csv' read_excel' jsonify' files
        = upload_file read_csv read_excel jsonify files).
Proof.
  unfold upload_file.
  destruct (files_get "file" files) as [file|]; [|split; [split; auto | reflexivity]].
  destruct (String.eqb_spec (filename file) "") as [E|E].
  - split; [split; [right; exists file; auto | reflexivity] | reflexivity].
  - split.
    + split.
      * destruct (upload_steps _ _ _ file); simpl; discriminate.
      * intros [H|[f [H Hf]]]; [discriminate|]. injection H as <-; contradiction.
    + destruct (upload_steps _ _ _ file); simpl; discriminate.
Qed.

(** X10: once the request passes those two checks, every failure of
    the upload is answered 500 with the exception: an unrecognized
    file name with the unsupported-format error, a failure of the
    reader with the reader's exception, a frame without a [userId]
    column with [KeyError('userId')]; and the answer is 200 exactly
    when parsing, building and encoding all succeed, its body being
    the encoded [{'status': 'success', 'data': hierarchy}] where the
    hierarchy is the one built from the cleaned frame. *)
Theorem upload_outcomes (files : list (string * FileStorage)) (file : FileStorage) :
  files_get "file" files = Some file ->
  filename file <> "" ->
  (unrecognized (filename file) ->
   upload_file read_csv read_excel jsonify files
   = mkResponse 500 (JsonError UnsupportedFormat))
  /\ (forall e, parse_file read_csv read_excel file = Raise e ->
        upload_file read_csv read_excel jsonify files = mkResponse 500 (JsonError e))
  /\ (forall df, parse_file read_csv read_excel file = Ok df ->
        count_label "userId" (columns (clean_data df)) = 0 ->
        upload_file read_csv read_excel jsonify files
        = mkResponse 500 (JsonError (KeyError "userId")))
  /\ (forall df, parse_file read_csv read_excel file = Ok df ->
        well_labelled (columns (clean_data df)) = true ->
        upload_file read_csv read_excel jsonify files
        = match jsonify (PDict [(PStr "status", PStr "success");
                                (PStr "data", hierarchy_of (clean_data df))]) with
          | Ok v => mkResponse 200 (Json v)
          | Raise e => mkResponse 500 (JsonError e)
          end)
  /\ (status (upload_file read_csv read_excel jsonify files) = 200 ->
      exists df data v,
        parse_file read_csv read_excel file = Ok df
        /\ transform_to_hierarchy (clean_data df) = Ok data
        /\ jsonify (PDict [(PStr "status", PStr "success"); (PStr "data", data)]) = Ok v
        /\ upload_file read_csv read_excel jsonify files = mkResponse 200 (Json v)).
Proof.
  intros Hf Hn; unfold upload_file; rewrite Hf.
  apply String.eqb_neq in Hn; rewrite Hn.
  unfold upload_steps.
  split; [|split; [|split; [|split]]].
  - intros [H1 [H2 H3]]; unfold parse_file; rewrite H1, H2, H3; reflexivity.
  - intros e He; rewrite He; reflexivity.
  - intros df Hp Hc; rewrite Hp; cbn [bind].
    unfold transform_to_hierarchy, groupby; rewrite (get_loc_none _ _ Hc); reflexivity.
  - intros df Hp Hw; rewrite Hp; cbn [bind].
    rewrite (transform_to_hierarchy_value _ Hw); reflexivity.
  - destruct (parse_file read_csv read_excel file) as [df|e]; cbn [bind];
      [|simpl; discriminate].
    destruct (transform_to_hierarchy (clean_data df)) as [data|e] eqn:Et; cbn [bind];
      [|simpl; discriminate].
    destruct (jsonify _) as [v|e] eqn:Ej; [|simpl; discriminate].
    intros _; exists df, data, v; repeat split; assumption.
Qed.

(** X11: [export_file] never answers 400.  On a request body that is
    a dictionary whose [data] can be walked it hands to the writer the
    records that pass the [reviewed_only] test, in the order of the
    walk; the writer is [to_csv], with the csv file name and media
    type, exactly when [format] is the string ['csv'], and [to_excel]
    with the xlsx ones for any other value or when [format] is absent;
    a failure of the writer is answered 500.  A body that is not a
    dictionary, or whose [data] is not one (a list of users, say), is
    answered 500 as well. *)
Theorem export_outcomes (req_data : pyval) :
  (status (export_file to_csv to_excel req_data) = 200
   \/ status (export_file to_csv to_excel req_data) = 500)
  /\ (is_dict req_data = false ->
      export_file to_csv to_excel req_data = mkResponse 500 (JsonError (AttributeError "get")))
  /\ (is_dict req_data = true ->
      is_dict (field req_data "data" (PDict [])) = false ->
      export_file to_csv to_excel req_data = mkResponse 500 (JsonError (AttributeError "items")))
  /\ (is_dict req_data = true ->
      walkable (field req_data "data" (PDict [])) = true ->
      export_file to_csv to_excel req_data
      = let records := filter (passes (field req_data "reviewed_only" (PBool false)))
                              (records_of (field req_data "data" (PDict []))) in
        if key_eqb (field req_data "format" (PStr "xlsx")) (PStr "csv")
        then match to_csv records with
             | Ok content =>
                 mkResponse 200 (Attachment "reviewed_images.csv" "text/csv" content)
             | Raise e => mkResponse 500 (JsonError e)
             end
        else match to_excel records with
             | Ok content =>
                 mkResponse 200
                   (Attachment "reviewed_images.xlsx"
                      "application/vnd.openxmlformats-officedocument.spreadsheetml.sheet"
                      content)
             | Raise e => mkResponse 500 (JsonError e)
             end).
Proof.
  split; [|split; [|split]].
  - unfold export_file.
    destruct (export_steps to_csv to_excel req_data) as [[[n m] c]|e]; simpl; auto.
  - intros H; unfold export_file, export_steps.
    destruct req_data; simpl in H; try discriminate; reflexivity.
  - intros Hd Hn; unfold export_file, export_steps.
    rewrite !py_get_field by exact Hd; cbn [bind].
    unfold flatten.
    destruct (field req_data "data" (PDict [])); simpl in Hn; try discriminate; reflexivity.
  - intros Hd Hw; unfold export_file, export_steps.
    rewrite !py_get_field by exact Hd; cbn [bind].
    rewrite flatten_value by exact Hw; rewrite selected_passes; cbn [bind].
    cbv zeta.
    destruct (key_eqb (field req_data "format" (PStr "xlsx")) (PStr "csv")).
    + destruct (to_csv _); reflexivity.
    + destruct (to_excel _); reflexivity.
Qed.

End RouteFacts.

Lemma upload_outcomes_witness :
  (files_get "file" [("file", sample_csv)] = Some sample_csv
   /\ filename sample_csv <> "")
  /\ upload_file (sample_reader scenario_A) failing_reader sample_jsonify
                 [("file", sample_csv)]
     = mkResponse 200 (Json (PDict [(PStr "status", PStr "success");
                                    (PStr "data", hierarchy_of (clean_data scenario_A))]))
  /\ upload_file failing_reader failing_reader sample_jsonify [("file", sample_txt)]
     = mkResponse 500 (JsonError UnsupportedFormat).
Proof.
  split; [split; [reflexivity | discriminate]|].
  split.
  - destruct (upload_outcomes (sample_reader scenario_A) failing_reader sample_jsonify
                [("file", sample_csv)] sample_csv eq_refl) as [_ [_ [_ [H _]]]];
      [discriminate|].
    rewrite (H (strip_columns scenario_A) eq_refl eq_refl); reflexivity.
  - destruct (upload_outcomes failing_reader failing_reader sample_jsonify
                [("file", sample_txt)] sample_txt eq_refl) as [H _];
      [discriminate|].
    apply H; repeat split; reflexivity.
Defined.

Lemma export_outcomes_witness :
  (is_dict (PDict [(PStr "data", scenario_B); (PStr "format", PStr "csv");
                   (PStr "reviewed_only", PBool true)]) = true
   /\ walkable scenario_B = true)
  /\ export_file sample_writer sample_writer
       (PDict [(PStr "data", scenario_B); (PStr "format", PStr "csv");
               (PStr "reviewed_only", PBool true)])
     = mkResponse 200 (Attachment "reviewed_images.csv" "text/csv" []).
Proof.
  split; [split; reflexivity|].
  destruct (export_outcomes sample_writer sample_writer
              (PDict [(PStr "data", scenario_B); (PStr "format", PStr "csv");
                      (PStr "reviewed_only", PBool true)])) as [_ [_ [_ H]]].
  rewrite H; reflexivity.
Defined.

(* ================================================================= *)
(** * Several spellings of a recognized name *)

Lemma count_label_filter (f : string -> bool) (x : string) (l : list string) :
  f x = true -> count_label x (filter f l) = count_label x l.
Proof.
  intros Hx; unfold count_label; induction l as [|y l IH]; simpl; [reflexivity|].
  destruct (String.eqb_spec x y) as [->|Hne].
  - rewrite Hx; simpl; rewrite String.eqb_refl; simpl; rewrite IH; reflexivity.
  - destruct (f y); simpl; [|exact IH].
    apply String.eqb_neq in Hne; rewrite Hne; exact IH.
Qed.

Lemma matches_refl (m : string) : matches m m = true.
Proof. apply String.eqb_refl. Qed.

(** Reconciling another name leaves the labels that match [m] alone. *)
Lemma guess_column_other (cols : list string) (m m' : string) :
  PyStr.lower m' <> PyStr.lower m ->
  filter (matches m) (guess_column cols m') = filter (matches m) cols.
Proof.
  intros Hl; unfold guess_column.
  destruct (find _ cols) as [c0|] eqn:E; [|reflexivity].
  apply find_some in E; destruct E as [_ E]; apply String.eqb_eq in E.
  unfold rename; induction cols as [|x cols IH]; simpl; [reflexivity|].
  destruct (String.eqb_spec x c0) as [->|Hne].
  - assert (H1 : matches m m' = false)
      by (unfold matches; apply String.eqb_neq; exact Hl).
    assert (H2 : matches m c0 = false)
      by (unfold matches; apply String.eqb_neq; congruence).
    rewrite H1, H2; exact IH.
  - destruct (matches m x); rewrite IH; reflexivity.
Qed.

Lemma fold_guess_other (ms cols : list string) (m : string) :
  (forall m', In m' ms -> PyStr.lower m' <> PyStr.lower m) ->
  filter (matches m) (fold_left guess_column ms cols) = filter (matches m) cols.
Proof.
  revert cols; induction ms as [|m' ms IH]; cbn [fold_left]; intros cols H; [reflexivity|].
  rewrite IH by (intros x Hx; apply H; right; exact Hx).
  apply guess_column_other, H; left; reflexivity.
Qed.

Lemma find_filter (f : string -> bool) (l : list string) :
  find f l = hd_error (filter f l).
Proof.
  induction l as [|x l IH]; simpl; [reflexivity|].
  destruct (f x); [reflexivity | exact IH].
Qed.

Lemma count_label_rename (c m x : string) (l : list string) :
  x <> c -> x <> m -> count_label x (rename c m l) = count_label x l.
Proof.
  intros Hc Hm; unfold count_label, rename; induction l as [|y l IH]; simpl; [reflexivity|].
  destruct (String.eqb_spec y c) as [->|Hy].
  - apply String.eqb_neq in Hc, Hm; rewrite Hc, Hm; exact IH.
  - destruct (String.eqb x y); simpl; rewrite IH; reflexivity.
Qed.

Lemma count_label_renamed (c m : string) (l : list string) :
  count_label m l = 0 -> count_label m (rename c m l) = count_label c l.
Proof.
  unfold count_label, rename; induction l as [|y l IH]; simpl; [reflexivity|].
  destruct (String.eqb_spec m y) as [->|Hy]; simpl; [discriminate|].
  intros H; destruct (String.eqb_spec y c) as [->|Hc].
  - rewrite !String.eqb_refl; simpl; rewrite IH by exact H; reflexivity.
  - apply String.eqb_neq in Hy; rewrite Hy.
    destruct (String.eqb_spec c y) as [->|Hc']; [contradiction|].
    apply IH; exact H.
Qed.

Lemma missing_split (cols : list string) (m : string) :
  In m required -> ~ In m cols ->
  exists ms1 ms2,
    filter (fun c => negb (has_column c cols)) required = ms1 ++ m :: ms2
    /\ (forall x, In x ms1 -> In x required /\ PyStr.lower x <> PyStr.lower m)
    /\ (forall x, In x ms2 -> In x required /\ PyStr.lower x <> PyStr.lower m).
Proof.
  intros Hm Hnot.
  assert (Hmiss : negb (has_column m cols) = true).
  { apply negb_true_iff; destruct (has_column m cols) eqn:E; [|reflexivity].
    apply has_column_In in E; contradiction. }
  assert (Hd : forall a b, In a required -> In b required -> a <> b ->
                           PyStr.lower a <> PyStr.lower b)
    by (intros a b Ha Hb Hne Hl; apply Hne, required_lower_inj; assumption).
  unfold required in *; simpl in Hm.
  destruct Hm as [<-|[<-|[<-|[<-|[]]]]]; cbn [filter]; rewrite Hmiss.
  - exists [], (filter (fun c => negb (has_column c cols)) ["url"; "title"; "content"]).
    split; [reflexivity|]; split; [intros x []|].
    intros x Hx; apply filter_In in Hx; destruct Hx as [Hx _].
    split; [right; exact Hx|].
    apply Hd; [right; exact Hx | left; reflexivity |].
    simpl in Hx; intuition (subst; discriminate).
  - exists (filter (fun c => negb (has_column c cols)) ["userId"]),
           (filter (fun c => negb (has_column c cols)) ["title"; "content"]).
    split; [cbn [filter]; destruct (negb (has_column "userId" cols)); reflexivity|].
    split; intros x Hx; apply filter_In in Hx; destruct Hx as [Hx _];
      (split; [simpl in *; tauto|]);
      (apply Hd; [simpl in *; tauto | simpl; tauto |]);
      simpl in Hx; intuition (subst; discriminate).
  - exists (filter (fun c => negb (has_column c cols)) ["userId"; "url"]),
           (filter (fun c => negb (has_column c cols)) ["content"]).
    split; [cbn [filter]; destruct (negb (has_column "userId" cols)),
                                   (negb (has_column "url" cols)); reflexivity|].
    split; intros x Hx; apply filter_In in Hx; destruct Hx as [Hx _];
      (split; [simpl in *; tauto|]);
      (apply Hd; [simpl in *; tauto | simpl; tauto |]);
      simpl in Hx; intuition (subst; discriminate).
  - exists (filter (fun c => negb (has_column c cols)) ["userId"; "url"; "title"]), [].
    split; [cbn [filter]; destruct (negb (has_column "userId" cols)),
                                   (negb (has_column "url" cols)),
                                   (negb (has_column "title" cols)); reflexivity|].
    split; [|intros x []].
    intros x Hx; apply filter_In in Hx; destruct Hx as [Hx _];
      (split; [simpl in *; tauto|]);
      (apply Hd; [simpl in *; tauto | simpl; tauto |]);
      simpl in Hx; intuition (subst; discriminate).
Qed.

(** X12: when no column carries the recognized name [m] and several
    labels equal it up to case, [clean_data] renames the first of them
    (with every column spelled exactly like it) and leaves the other
    spellings as they are: afterwards as many columns are called [m]
    as were spelled like the first match, and each other spelling
    still names as many columns as before. *)
Theorem first_match_is_renamed (cols : list string) (m c : string) :
  In m required -> ~ In m cols ->
  find (matches m) cols = Some c ->
  count_label m (reconcile_columns cols) = count_label c cols
  /\ forall x, matches m x = true -> x <> c -> x <> m ->
       count_label x (reconcile_columns cols) = count_label x cols.
Proof.
  intros Hm Hnot Hfind.
  destruct (missing_split cols m Hm Hnot) as [ms1 [ms2 [Hms [H1 H2]]]].
  assert (Hmc : m <> c).
  { intros ->; apply find_some in Hfind; destruct Hfind as [Hin _]; contradiction. }
  assert (Hc : matches m c = true) by (apply find_some in Hfind; tauto).
  assert (Hm0 : count_label m cols = 0).
  { destruct (count_label m cols) eqn:E; [reflexivity|].
    exfalso; apply Hnot, has_column_In.
    rewrite has_column_count, E; reflexivity. }
  set (mid := fold_left guess_column ms1 cols).
  assert (Emid : filter (matches m) mid = filter (matches m) cols)
    by (apply fold_guess_other; intros x Hx; apply H1; exact Hx).
  assert (Efinal : filter (matches m) (reconcile_columns cols)
                   = filter (matches m) (rename c m mid)).
  { unfold reconcile_columns; rewrite Hms, fold_left_app; cbn [fold_left].
    fold mid; rewrite fold_guess_other by (intros x Hx; apply H2; exact Hx).
    unfold guess_column.
    fold (matches m); rewrite find_filter, Emid, <- find_filter, Hfind; reflexivity. }
  assert (Count : forall x l, matches m x = true ->
            count_label x l = count_label x (filter (matches m) l))
    by (intros x l Hx; symmetry; apply count_label_filter; exact Hx).
  split.
  - rewrite (Count m _ (matches_refl m)), Efinal, <- (Count m _ (matches_refl m)).
    rewrite count_label_renamed.
    + rewrite (Count c mid Hc), Emid, <- (Count c cols Hc); reflexivity.
    + rewrite (Count m mid (matches_refl m)), Emid, <- (Count m cols (matches_refl m)).
      exact Hm0.
  - intros x Hx Hxc Hxm.
    rewrite (Count x _ Hx), Efinal, <- (Count x _ Hx).
    rewrite count_label_rename by assumption.
    rewrite (Count x mid Hx), Emid, <- (Count x cols Hx); reflexivity.
Qed.

Lemma first_match_is_renamed_witness :
  (In "userId" required /\ ~ In "userId" two_spellings
   /\ find (matches "userId") two_spellings = Some "USERID")
  /\ count_label "userId" (reconcile_columns two_spellings) = 2
  /\ count_label "UserId" (reconcile_columns two_spellings) = 1.
Proof.
  assert (H1 : In "userId" required) by (left; reflexivity).
  assert (H2 : ~ In "userId" two_spellings)
    by (unfold two_spellings; simpl; intuition discriminate).
  split; [split; [exact H1 | split; [exact H2 | reflexivity]]|].
  destruct (first_match_is_renamed two_spellings "userId" "USERID" H1 H2 eq_refl)
    as [Hm Hx].
  split; [rewrite Hm; reflexivity|].
  rewrite Hx; [reflexivity | reflexivity | discriminate | discriminate].
Defined.

(* ================================================================= *)
(** * Columns that play no part *)

Lemma missing_nil (cols : list string) :
  (forall m, In m required -> In m cols) ->
  filter (fun c => negb (has_column c cols)) required = [].
Proof.
  intros H; apply filter_none; intros m Hm.
  apply negb_false_iff, has_column_In, H, Hm.
Qed.

(** X13: a recognized name that is the label of a column shields the
    other spellings of that name: [clean_data] leaves every label
    equal to it up to case as it is; and a frame that has all four
    names keeps all its labels. *)
Theorem present_name_blocks_renaming (cols : list string) :
  (forall m, In m required -> In m cols ->
     filter (matches m) (reconcile_columns cols) = filter (matches m) cols)
  /\ ((forall m, In m required -> In m cols) -> reconcile_columns cols = cols).
Proof.
  split.
  - intros m Hm Hin; unfold reconcile_columns; apply fold_guess_other.
    intros m' Hm' Hl; apply filter_In in Hm'; destruct Hm' as [Hreq Hmiss].
    assert (m' = m) by (apply required_lower_inj; assumption); subst m'.
    apply has_column_In in Hin; rewrite Hin in Hmiss; discriminate.
  - intros H; unfold reconcile_columns; rewrite (missing_nil cols H); reflexivity.
Qed.

Lemma present_name_blocks_renaming_witness :
  (In "url" required /\ In "url" (columns scenario_A_wide))
  /\ filter (matches "url") (columns (clean_data scenario_A_wide)) = ["url"; "URL"].
Proof.
  assert (H1 : In "url" required) by (right; left; reflexivity).
  assert (H2 : In "url" (columns scenario_A_wide)) by (right; right; left; reflexivity).
  split; [split; assumption|].
  destruct (present_name_blocks_renaming (columns scenario_A_wide)) as [H _].
  change (columns (clean_data scenario_A_wide))
    with (reconcile_columns (columns scenario_A_wide)).
  rewrite (H "url" H1 H2); reflexivity.
Defined.

(** ** Projection on the recognized columns *)

Lemma group_keys_map (p p' : nat) (f : row -> row) (rs : list row) :
  (forall r, cell_at p' (f r) = cell_at p r) ->
  group_keys p' (map f rs) = group_keys p rs.
Proof.
  intros H; unfold group_keys; rewrite map_map.
  rewrite (map_ext _ (cell_at p)) by exact H; reflexivity.
Qed.

Lemma group_rows_map (p p' : nat) (f : row -> row) (k : cell) (rs : list row) :
  (forall r, cell_at p' (f r) = cell_at p r) ->
  group_rows p' k (map f rs) = map f (group_rows p k rs).
Proof.
  intros H; unfold group_rows; rewrite filter_map_comm; f_equal.
  apply filter_ext_on; intros r _; rewrite H; reflexivity.
Qed.

Lemma hierarchy_of_project (df : DataFrame) :
  has_column "content" (columns df) = true ->
  hierarchy_of (project df) = hierarchy_of df.
Proof.
  intros Hc.
  set (f := fun r : row =>
              (fst r, [cell_at (user_pos (columns df)) r; cell_at (url_pos (columns df)) r;
                       cell_at (title_pos (columns df)) r;
                       cell_at (content_pos (columns df)) r])).
  assert (Hu : forall r, cell_at 0 (f r) = cell_at (user_pos (columns df)) r)
    by reflexivity.
  assert (Ht : forall r, cell_at 2 (f r) = cell_at (title_pos (columns df)) r)
    by reflexivity.
  assert (Eusers : users_of (project df) = users_of df)
    by (apply (group_keys_map _ 0 f); exact Hu).
  assert (Erows : forall u, user_rows (project df) u = map f (user_rows df u))
    by (intros u; apply (group_rows_map _ 0 f); exact Hu).
  assert (Etitles : forall u, titles_of (project df) u = titles_of df u).
  { intros u; unfold titles_of; rewrite Erows.
    apply (group_keys_map _ 2 f); exact Ht. }
  assert (Emem : forall u t, members (project df) u t = map f (members df u t)).
  { intros u t; unfold members; rewrite Erows.
    apply (group_rows_map _ 2 f); exact Ht. }
  assert (Eprompt : forall u t,
            prompt_dict (columns (project df)) t (members (project df) u t)
            = prompt_dict (columns df) t (members df u t)).
  2: { unfold hierarchy_of, user_entries; rewrite Eusers; do 2 f_equal.
       apply map_ext; intros u; f_equal.
       unfold user_dict; rewrite Etitles.
       rewrite (map_ext _ (fun t => (py t, prompt_dict (columns df) t (members df u t))));
         [reflexivity|].
       intros t; rewrite Eprompt; reflexivity. }
  intros u t.
  rewrite Emem; unfold prompt_dict.
  assert (Eg : group_content (columns (project df)) (map f (members df u t))
               = group_content (columns df) (members df u t)).
  { unfold group_content; rewrite Hc; simpl.
    destruct (members df u t); reflexivity. }
  rewrite Eg, map_map.
  rewrite (map_ext _ (image_dict (columns df) (group_content (columns df) (members df u t))));
    [reflexivity|].
  intros r; unfold image_dict, item_content; rewrite Hc; reflexivity.
Qed.

(** X14: the builder reads the four recognized columns and the index
    only: the hierarchy of a frame is the hierarchy of the frame cut
    down to [userId], [url], [title] and [content], so that columns
    with other labels, wherever they stand, change nothing. *)
Theorem other_columns_are_ignored (df : DataFrame) :
  well_labelled (columns df) = true ->
  has_column "content" (columns df) = true ->
  transform_to_hierarchy df = transform_to_hierarchy (project df)
  /\ transform_to_hierarchy df = Ok (hierarchy_of (project df)).
Proof.
  intros Hw Hc.
  rewrite (transform_to_hierarchy_value df Hw).
  rewrite (transform_to_hierarchy_value (project df)) by reflexivity.
  rewrite hierarchy_of_project by exact Hc; split; reflexivity.
Qed.

Lemma other_columns_are_ignored_witness :
  (well_labelled (columns scenario_A_wide) = true
   /\ has_column "content" (columns scenario_A_wide) = true)
  /\ transform_to_hierarchy scenario_A_wide = transform_to_hierarchy scenario_A.
Proof.
  split; [split; reflexivity|].
  destruct (other_columns_are_ignored scenario_A_wide eq_refl eq_refl) as [H _].
  rewrite H; reflexivity.
Defined.
